(** * Digital Twin language features of the IoT Workbench extension

    A shallow embedding of [src/extension.ts]: the hover provider, the
    completion provider and the document-lifecycle handlers that drive
    the diagnostics of metamodel documents ([*.interface.json] and
    [*.capabilitymodel.json]).

    The ontology parser ([DigitalTwinMetaModelParser]), the JSON position
    parser ([DigitalTwinMetaModelJsonParser]) and the diagnostic engine
    ([DigitalTwinDiagnostic]) are other modules of the extension; they
    appear here as records of operations that the provider code calls. *)

From Stdlib Require Import String Ascii NArith ZArith Bool Lia.
From stdpp Require Import gmap strings list.

Local Open Scope string_scope.
Local Open Scope list_scope.
Local Open Scope stdpp_scope.

(** ** Strings and paths *)

(** [s.endsWith(suffix)], the meaning of a pattern [/suffix$/] made of
    literal characters. *)
Definition endsWith (s suffix : string) : bool :=
  let n := String.length s in
  let m := String.length suffix in
  (m <=? n)%nat && String.eqb (substring (n - m) m s) suffix.

(** [/\.(interface|capabilitymodel)\.json$/.test(path)] *)
Definition isMetaModelPath (path : string) : bool :=
  endsWith path ".interface.json" || endsWith path ".capabilitymodel.json".

(** [array.indexOf(x)] on an array of strings: the first position of [x],
    or [-1]. *)
Fixpoint indexOfFrom (i : Z) (l : list string) (x : string) : Z :=
  match l with
  | [] => (-1)%Z
  | y :: l' => if String.eqb y x then i else indexOfFrom (i + 1)%Z l' x
  end.

Definition indexOf (l : list string) (x : string) : Z := indexOfFrom 0%Z l x.

(** Truthiness of a value of type [string | null | undefined]. *)
Definition truthy (v : option string) : bool :=
  match v with
  | Some s => negb (String.eqb s "")
  | None => false
  end.

(** ** Editor values *)

Record TextDocument := {
  fsPath : string;
  getText : string
}.

Record Position := {
  line : nat;
  character : nat
}.

Definition getDocumentType (document : TextDocument) : string :=
  if endsWith (fsPath document) ".interface.json" then "Interface"
  else "CapabilityModel".

(** ** Completion records of the JavaScript code

    A statement either completes normally with a value or throws.  The
    only exception the provider code can raise by itself is the
    [TypeError] of reading a property of [null] or [undefined]. *)

Inductive JsError := TypeError.

Inductive Completion (A : Type) :=
| Normal (a : A)
| Throw (e : JsError).

Arguments Normal {A} a.
Arguments Throw {A} e.

#[global] Instance Completion_ret : MRet Completion := @Normal.

#[global] Instance Completion_bind : MBind Completion :=
  fun A B (k : A -> Completion B) (c : Completion A) =>
    match c with
    | Normal a => k a
    | Throw e => Throw e
    end.

(** [for (const a of l) { s = body(s, a) }] *)
Fixpoint forOf {A S} (body : S -> A -> Completion S) (l : list A) (s : S)
  : Completion S :=
  match l with
  | [] => Normal s
  | a :: l' => s' ← body s a; forOf body l' s'
  end.

(** [!v] for a value of type [object | null]. *)
Definition isNull {A} (v : option A) : bool :=
  match v with
  | Some _ => false
  | None => true
  end.

(** Reading a property of a value that may be [null]. *)
Definition deref {A} (v : option A) : Completion A :=
  match v with
  | Some a => Normal a
  | None => Throw TypeError
  end.

(** ** Ontology and JSON position interfaces *)

(** The two metamodel contexts loaded at activation. *)
Inductive DigitalTwinMetaModelContext := dtInterface | dtCapabilityModel.

(** [{label: string, required: boolean, type?: string}] *)
Record TypedProperty := {
  label : string;
  required : bool;
  type : option string
}.

(** The methods of [dtParser] that the providers call. *)
Record DigitalTwinMetaModelParser := {
  getIdFromShortName :
    DigitalTwinMetaModelContext -> option string -> option string;
  getTypesFromId : DigitalTwinMetaModelContext -> string -> list string;
  getTypedPropertiesFromType :
    DigitalTwinMetaModelContext -> string -> list TypedProperty;
  getStringValuesFromShortName :
    DigitalTwinMetaModelContext -> string -> list string;
  getCommentFromId : string -> option string
}.

(** [jsonInfo.type]: absent, one type name, or an array of type names. *)
Inductive JsonType :=
| TypeUndefined
| TypeName (name : string)
| TypeNames (names : list string).

Record JsonInfo := {
  isValue : bool;
  key : string;
  lastKey : option string;
  infoType : JsonType;
  properties : list string
}.

(** The static methods of [DigitalTwinMetaModelJsonParser] that decide what
    is suggested.  [getTokenRange] and [getCompletionItemsFromArray] only
    turn the chosen array into editor items over the range of the token
    under the cursor; the providers' answer is modelled as the array that
    is handed to them. *)
Record DigitalTwinMetaModelJsonParser := {
  getIdAtPosition :
    TextDocument -> Position -> DigitalTwinMetaModelContext -> option string;
  getJsonInfoAtPosition : TextDocument -> Position -> option JsonInfo;
  getDigitalTwinContextTypeAtPosition :
    TextDocument -> Position -> string -> string
}.

(** ** Hover provider *)

Definition provideHover (dtParser : DigitalTwinMetaModelParser)
    (json : DigitalTwinMetaModelJsonParser)
    (document : TextDocument) (position : Position) : option string :=
  let id := getIdAtPosition json document position dtInterface in
  let hoverText :=
    match id with
    | Some id' =>
      if negb (String.eqb id' "") then
        if String.eqb id' "@id" then
          Some "An identifier for Digital Twin capability model or interface."
        else if String.eqb id' "@type" then
          Some "The type of Digital Twin meta model object."
        else if String.eqb id' "@context" then
          Some "The context for Digital Twin capability model or interface."
        else getCommentFromId dtParser id'
      else None
    | None => None
    end in
  if truthy hoverText then hoverText else None.

(** ** The object used to merge key lists

    [completionObject] is an ordinary object created by [{}] whose slots
    hold [{required, type}] records.  It is read and written with
    arbitrary labels, so the model keeps what such an object does with
    every string: its own properties in insertion order, its prototype
    (replaced when the label ["__proto__"] is assigned) and the members
    inherited from [Object.prototype]. *)

Record CompletionEntry := {
  entryRequired : bool;
  entryType : option string
}.

(** What [completionObject[label]] can evaluate to. *)
Inductive JsValue :=
| JsUndefined
| JsEntry (e : CompletionEntry)
| JsBuiltin
| JsBoolean (b : bool)
| JsString (s : string).

Record JsObject := {
  own : list (string * CompletionEntry);
  proto : option CompletionEntry
}.

Definition emptyObject : JsObject := {| own := []; proto := None |}.

(** The function-valued members of [Object.prototype]. *)
Definition objectPrototypeMethods : list string :=
  [ "constructor"; "__defineGetter__"; "__defineSetter__"; "hasOwnProperty";
    "__lookupGetter__"; "__lookupSetter__"; "isPrototypeOf";
    "propertyIsEnumerable"; "toString"; "valueOf"; "toLocaleString" ].

Definition isPrototypeMethod (k : string) : bool :=
  negb (Z.eqb (indexOf objectPrototypeMethods k) (-1)).

Fixpoint ownLookup (k : string) (l : list (string * CompletionEntry))
  : option CompletionEntry :=
  match l with
  | [] => None
  | (k', e) :: l' => if String.eqb k' k then Some e else ownLookup k l'
  end.

(** Assignment to an own property keeps the position of an existing key and
    appends a new one. *)
Fixpoint ownStore (k : string) (e : CompletionEntry)
    (l : list (string * CompletionEntry)) : list (string * CompletionEntry) :=
  match l with
  | [] => [(k, e)]
  | (k', e') :: l' =>
    if String.eqb k' k then (k', e) :: l' else (k', e') :: ownStore k e l'
  end.

Definition inheritedFromObjectPrototype (k : string) : JsValue :=
  if isPrototypeMethod k then JsBuiltin else JsUndefined.

(** [o[k]] *)
Definition jsGet (o : JsObject) (k : string) : JsValue :=
  match ownLookup k (own o) with
  | Some e => JsEntry e
  | None =>
    if String.eqb k "__proto__" then
      match proto o with
      | Some e => JsEntry e
      | None => JsBuiltin
      end
    else
      match proto o with
      | Some e =>
        if String.eqb k "required" then JsBoolean (entryRequired e)
        else if String.eqb k "type" then
          match entryType e with
          | Some s => JsString s
          | None => JsUndefined
          end
        else inheritedFromObjectPrototype k
      | None => inheritedFromObjectPrototype k
      end
  end.

(** [o[k] = e] *)
Definition jsSet (o : JsObject) (k : string) (e : CompletionEntry) : JsObject :=
  if String.eqb k "__proto__" then {| own := own o; proto := Some e |}
  else {| own := ownStore k e (own o); proto := proto o |}.

Definition jsTruthy (v : JsValue) : bool :=
  match v with
  | JsUndefined => false
  | JsEntry _ => true
  | JsBuiltin => true
  | JsBoolean b => b
  | JsString s => negb (String.eqb s "")
  end.

(** [v.required]; [None] is [undefined]. *)
Definition readRequired (v : JsValue) : Completion (option bool) :=
  match v with
  | JsUndefined => Throw TypeError
  | JsEntry e => Normal (Some (entryRequired e))
  | _ => Normal None
  end.

(** [v.type] *)
Definition readType (v : JsValue) : Completion (option string) :=
  match v with
  | JsUndefined => Throw TypeError
  | JsEntry e => Normal (entryType e)
  | _ => Normal None
  end.

(** [a || b] where [a] is [boolean | undefined] and [b] is a boolean. *)
Definition jsOr (a : option bool) (b : bool) : bool :=
  match a with
  | Some true => true
  | _ => b
  end.

Definition asBoolean (a : option bool) : bool := jsOr a false.

(** *** Order of [Object.keys]

    Keys that are array indices come first, in ascending numeric order;
    the other keys follow in insertion order. *)

Definition digitValue (c : ascii) : option N :=
  let n := N_of_ascii c in
  if (48 <=? n)%N && (n <=? 57)%N then Some (n - 48)%N else None.

Fixpoint decimalValue (s : string) (acc : N) : option N :=
  match s with
  | EmptyString => Some acc
  | String c s' =>
    match digitValue c with
    | Some d => decimalValue s' (acc * 10 + d)%N
    | None => None
    end
  end.

(** A canonical numeric string below [2^32 - 1]. *)
Definition arrayIndex (s : string) : option N :=
  match s with
  | EmptyString => None
  | String c rest =>
    if Ascii.eqb c "0"%char && negb (String.eqb rest "") then None
    else
      match decimalValue s 0%N with
      | Some n => if (n <? 4294967295)%N then Some n else None
      | None => None
      end
  end.

Fixpoint insertIndex (i : N) (k : string) (l : list (N * string))
  : list (N * string) :=
  match l with
  | [] => [(i, k)]
  | (j, k') :: l' =>
    if (i <=? j)%N then (i, k) :: l else (j, k') :: insertIndex i k l'
  end.

Fixpoint indexKeys (keys : list string) : list (N * string) :=
  match keys with
  | [] => []
  | k :: keys' =>
    match arrayIndex k with
    | Some i => insertIndex i k (indexKeys keys')
    | None => indexKeys keys'
    end
  end.

Fixpoint namedKeys (keys : list string) : list string :=
  match keys with
  | [] => []
  | k :: keys' =>
    match arrayIndex k with
    | Some _ => namedKeys keys'
    | None => k :: namedKeys keys'
    end
  end.

(** [Object.keys(o)] *)
Definition objectKeys (o : JsObject) : list string :=
  let keys := map fst (own o) in
  map snd (indexKeys keys) ++ namedKeys keys.

(** ** Completion provider *)

(** The array given to [getCompletionItemsFromArray]: literal values at a
    value position, typed property keys at a key position. *)
Inductive CompletionList :=
| ValueItems (values : list string)
| KeyItems (keys : list TypedProperty).

(** Body of the first loop over [keyList]. *)
Definition mergeKey (completionObject : JsObject) (keyObject : TypedProperty)
  : Completion JsObject :=
  let current := jsGet completionObject (label keyObject) in
  req ← (if jsTruthy current then
           r ← readRequired current;
           Normal (jsOr r (required keyObject))
         else Normal (required keyObject));
  ty ← (if jsTruthy current then readType current
        else Normal (type keyObject));
  Normal (jsSet completionObject (label keyObject)
            {| entryRequired := req; entryType := ty |}).

(** Body of the loop over [Object.keys(completionObject)]. *)
Definition pushKey (completionObject : JsObject) (keyList : list TypedProperty)
    (key : string) : Completion (list TypedProperty) :=
  let current := jsGet completionObject key in
  req ← readRequired current;
  ty ← readType current;
  Normal (keyList ++ [ {| label := key; required := asBoolean req; type := ty |} ]).

(** Lines 262-287: the key list of an array of types. *)
Definition mergedKeyList (dtParser : DigitalTwinMetaModelParser)
    (dtContext : DigitalTwinMetaModelContext) (types : list string)
  : Completion (list TypedProperty) :=
  let keyList :=
    fold_left
      (fun keyList currentType =>
         keyList ++ getTypedPropertiesFromType dtParser dtContext currentType)
      types [] in
  completionObject ← forOf mergeKey keyList emptyObject;
  forOf (pushKey completionObject) (objectKeys completionObject) [].

Definition isRootType (t : JsonType) : bool :=
  match t with
  | TypeName s => String.eqb s "Interface" || String.eqb s "CapabilityModel"
  | _ => false
  end.

(** [!jsonInfo.type] is false for every array, also the empty one. *)
Definition typeTruthy (t : JsonType) : bool :=
  match t with
  | TypeUndefined => false
  | TypeName s => negb (String.eqb s "")
  | TypeNames _ => true
  end.

(** Lines 243-253: a missing type is taken from the parent key when that key
    has exactly one declared type and it is not a root kind. *)
Definition inferType (dtParser : DigitalTwinMetaModelParser)
    (dtContext : DigitalTwinMetaModelContext) (jsonInfo : JsonInfo) : JsonType :=
  if negb (typeTruthy (infoType jsonInfo)) then
    let id := getIdFromShortName dtParser dtContext (lastKey jsonInfo) in
    if truthy id then
      match getTypesFromId dtParser dtContext (default "" id) with
      | [v] =>
        if negb (String.eqb v "Interface") && negb (String.eqb v "CapabilityModel")
        then TypeName v
        else infoType jsonInfo
      | _ => infoType jsonInfo
      end
    else infoType jsonInfo
  else infoType jsonInfo.

(** The test of line 255. *)
Definition typeResolved (t : JsonType) : bool :=
  match t with
  | TypeUndefined => false
  | TypeName s => negb (String.eqb s "")
  | TypeNames l => (0 <? length l)%nat
  end.

Definition absent (jsonInfo : JsonInfo) (k : string) : bool :=
  Z.eqb (indexOf (properties jsonInfo) k) (-1).

(** Lines 239-318: the key position. *)
Definition completeKey (dtParser : DigitalTwinMetaModelParser)
    (dtContext : DigitalTwinMetaModelContext) (jsonInfo : JsonInfo)
  : Completion (option CompletionList) :=
  let jsonType := inferType dtParser dtContext jsonInfo in
  let contextKey :=
    if typeResolved jsonType && isRootType jsonType && absent jsonInfo "@context"
    then [ {| label := "@context"; required := true; type := None |} ]
    else [] in
  keyList ←
    (if typeResolved jsonType then
       match jsonType with
       | TypeNames types => mergedKeyList dtParser dtContext types
       | TypeName t => Normal (getTypedPropertiesFromType dtParser dtContext t)
       | TypeUndefined => Normal [] (* excluded by the test above *)
       end
     else Normal [ {| label := "@type"; required := true; type := None |} ]);
  let completionKeyList :=
    fold_left
      (fun completionKeyList key =>
         if absent jsonInfo (label key) then completionKeyList ++ [key]
         else completionKeyList)
      keyList contextKey in
  let completionKeyList :=
    if isRootType jsonType && absent jsonInfo "@id"
    then completionKeyList ++
           [ {| label := "@id"; required := true; type := Some "string" |} ]
    else completionKeyList in
  Normal (Some (KeyItems completionKeyList)).

(** Lines 207-237: the value position. *)
Definition completeValue (dtParser : DigitalTwinMetaModelParser)
    (dtContext : DigitalTwinMetaModelContext) (contextType : string)
    (jsonInfo : JsonInfo) : Completion (option CompletionList) :=
  if String.eqb (key jsonInfo) "@context" then
    let contextUri :=
      if String.eqb contextType "Interface"
      then "http://azureiot.com/v0/contexts/Interface.json"
      else "http://azureiot.com/v0/contexts/CapabilityModel.json" in
    Normal (Some (ValueItems [contextUri]))
  else if String.eqb (key jsonInfo) "@type" then
    if truthy (lastKey jsonInfo) then
      let id := getIdFromShortName dtParser dtContext (lastKey jsonInfo) in
      if negb (truthy id) then Normal None
      else
        Normal (Some (ValueItems
                        (getTypesFromId dtParser dtContext (default "" id))))
    else Normal (Some (ValueItems [contextType]))
  else
    Normal (Some (ValueItems
                    (getStringValuesFromShortName dtParser dtContext
                       (key jsonInfo)))).

(** [provideCompletionItems(document, position)]; [Normal None] is the
    [null] result. *)
Definition provideCompletionItems (dtParser : DigitalTwinMetaModelParser)
    (json : DigitalTwinMetaModelJsonParser)
    (document : TextDocument) (position : Position)
  : Completion (option CompletionList) :=
  let documentType := getDocumentType document in
  let jsonInfo := getJsonInfoAtPosition json document position in
  let contextType :=
    getDigitalTwinContextTypeAtPosition json document position documentType in
  let dtContext :=
    if String.eqb contextType "Interface" then dtInterface
    else dtCapabilityModel in
  if isNull jsonInfo then Normal None
  else
    info ← deref jsonInfo;
    if isValue info then completeValue dtParser dtContext contextType info
    else completeKey dtParser dtContext info.

(** ** Diagnostics and document lifecycle *)

(** A positioned message, as the editor lists it for a document. *)
Record Diagnostic := {
  startOffset : nat;
  endOffset : nat;
  message : string
}.

(** Modelled from the spec: the class [DigitalTwinDiagnostic]
    ([src/DigitalTwin/DigitalTwinDiagnostic.ts]) is not among the sources.
    Its contract is "[update(context, document)] replaces that document's
    diagnostic set; [delete(document)] clears it", with the sets kept in a
    mapping keyed by document identity.  The validation walk itself is the
    operation [validate] of the record. *)
Record DigitalTwinDiagnostic := {
  validate : DigitalTwinMetaModelContext -> TextDocument -> list Diagnostic
}.

Module Diagnostics.

(** Modelled from the spec: [update(context, document)] replaces that
    document's diagnostic set with the result of the validation walk. *)
Definition update (dtDiagnostic : DigitalTwinDiagnostic)
    (context : DigitalTwinMetaModelContext) (document : TextDocument)
    (collection : gmap string (list Diagnostic))
  : gmap string (list Diagnostic) :=
  <[fsPath document := validate dtDiagnostic context document]> collection.

(** Modelled from the spec: [delete(document)] clears that document's
    diagnostic set. *)
Definition delete (document : TextDocument)
    (collection : gmap string (list Diagnostic))
  : gmap string (list Diagnostic) :=
  base.delete (fsPath document) collection.

(** What an external listing shows for a document identity. *)
Definition listing (collection : gmap string (list Diagnostic))
    (path : string) : list Diagnostic :=
  default [] (collection !! path).

End Diagnostics.

(** The two callbacks given to [setTimeout]: the one of the open handler
    (delay 0) and the one of the change handler (delay 500), which also
    resets [waitingForUpdatingDiagnostic] to [null]. *)
Inductive TimerKind := OpenTimeout | ChangeTimeout.

Definition delay (k : TimerKind) : nat :=
  match k with
  | OpenTimeout => 0
  | ChangeTimeout => 500
  end.

(** A pending timeout; the callback closes over the document object, which
    is identified by its path. *)
Record Timer := {
  timerKind : TimerKind;
  timerDocument : string
}.

(** The state that [activate] sets up: the shared timer handle, the
    timeouts pending in the event loop, the text of the live documents the
    handlers have seen and the diagnostic collection. *)
Record Extension := {
  waitingForUpdatingDiagnostic : option nat;
  timers : gmap nat Timer;
  nextTimer : nat;
  buffers : gmap string string;
  diagnostics : gmap string (list Diagnostic)
}.

(** What the event loop delivers to the extension, one at a time: the four
    editor events that [activate] subscribes to, and the firing of a pending
    timeout.  A pending timeout may fire at any later turn; the delays only
    restrict which interleavings occur. *)
Inductive Event :=
| DidOpenTextDocument (document : TextDocument)
| DidChangeTextDocument (document : TextDocument)
| DidChangeActiveTextEditor (editor : option TextDocument)
| DidCloseTextDocument (document : TextDocument)
| TimerFires (id : nat).

Section Lifecycle.

Variable dtDiagnostic : DigitalTwinDiagnostic.

(** The block shared by the handlers: pick the context from the file name
    and update the diagnostics. *)
Definition revalidate (document : TextDocument) (s : Extension) : Extension :=
  let documentType := getDocumentType document in
  let context :=
    if String.eqb documentType "Interface" then dtInterface
    else dtCapabilityModel in
  {| waitingForUpdatingDiagnostic := waitingForUpdatingDiagnostic s;
     timers := timers s;
     nextTimer := nextTimer s;
     buffers := buffers s;
     diagnostics := Diagnostics.update dtDiagnostic context document
                      (diagnostics s) |}.

(** [waitingForUpdatingDiagnostic = setTimeout(callback, delay)] *)
Definition setTimeout (k : TimerKind) (document : TextDocument)
    (s : Extension) : Extension :=
  {| waitingForUpdatingDiagnostic := Some (nextTimer s);
     timers := <[nextTimer s :=
                  {| timerKind := k; timerDocument := fsPath document |}]>
                 (timers s);
     nextTimer := S (nextTimer s);
     buffers := buffers s;
     diagnostics := diagnostics s |}.

(** [clearTimeout(id)]; clearing a timeout that has fired changes nothing. *)
Definition clearTimeout (id : nat) (s : Extension) : Extension :=
  {| waitingForUpdatingDiagnostic := waitingForUpdatingDiagnostic s;
     timers := base.delete id (timers s);
     nextTimer := nextTimer s;
     buffers := buffers s;
     diagnostics := diagnostics s |}.

Definition onDidOpenTextDocument (document : TextDocument) (s : Extension)
  : Extension :=
  if negb (isMetaModelPath (fsPath document)) then s
  else setTimeout OpenTimeout document s.

Definition onDidChangeTextDocument (document : TextDocument) (s : Extension)
  : Extension :=
  if negb (isMetaModelPath (fsPath document)) then s
  else
    let s1 :=
      match waitingForUpdatingDiagnostic s with
      | Some id => clearTimeout id s
      | None => s
      end in
    setTimeout ChangeTimeout document s1.

Definition onDidChangeActiveTextEditor (editor : option TextDocument)
    (s : Extension) : Extension :=
  match editor with
  | None => s
  | Some document =>
    if negb (isMetaModelPath (fsPath document)) then s
    else revalidate document s
  end.

Definition onDidCloseTextDocument (document : TextDocument) (s : Extension)
  : Extension :=
  if negb (isMetaModelPath (fsPath document)) then s
  else
    {| waitingForUpdatingDiagnostic := waitingForUpdatingDiagnostic s;
       timers := timers s;
       nextTimer := nextTimer s;
       buffers := buffers s;
       diagnostics := Diagnostics.delete document (diagnostics s) |}.

(** The live document a pending callback refers to. *)
Definition liveDocument (s : Extension) (path : string) : TextDocument :=
  {| fsPath := path; getText := default "" (buffers s !! path) |}.

(** A pending timeout fires: it leaves the event loop and its callback
    runs. *)
Definition onTimeout (id : nat) (s : Extension) : Extension :=
  match timers s !! id with
  | None => s
  | Some t =>
    let s1 := revalidate (liveDocument s (timerDocument t))
                (clearTimeout id s) in
    match timerKind t with
    | OpenTimeout => s1
    | ChangeTimeout =>
      {| waitingForUpdatingDiagnostic := None;
         timers := timers s1;
         nextTimer := nextTimer s1;
         buffers := buffers s1;
         diagnostics := diagnostics s1 |}
    end
  end.

(** The editor hands the handlers the live document, so its text is
    current whenever an event mentions it. *)
Definition observe (document : TextDocument) (s : Extension) : Extension :=
  {| waitingForUpdatingDiagnostic := waitingForUpdatingDiagnostic s;
     timers := timers s;
     nextTimer := nextTimer s;
     buffers := <[fsPath document := getText document]> (buffers s);
     diagnostics := diagnostics s |}.

Definition step (s : Extension) (e : Event) : Extension :=
  match e with
  | DidOpenTextDocument document =>
    onDidOpenTextDocument document (observe document s)
  | DidChangeTextDocument document =>
    onDidChangeTextDocument document (observe document s)
  | DidChangeActiveTextEditor editor =>
    onDidChangeActiveTextEditor editor
      (from_option (fun document => observe document s) s editor)
  | DidCloseTextDocument document => onDidCloseTextDocument document s
  | TimerFires id => onTimeout id s
  end.

(** Lines 68-82 of [activate]: validate the active editor's document and
    start with no timer. *)
Definition activate (activeEditor : option TextDocument) : Extension :=
  let s :=
    {| waitingForUpdatingDiagnostic := None;
       timers := ∅;
       nextTimer := 0;
       buffers := ∅;
       diagnostics := ∅ |} in
  onDidChangeActiveTextEditor activeEditor
    (from_option (fun document => observe document s) s activeEditor).

Definition run (s : Extension) (events : list Event) : Extension :=
  fold_left step events s.

(** The pending timeouts whose callback revalidates the document [path]. *)
Definition pendingFor (s : Extension) (path : string) : gmap nat Timer :=
  filter (fun it => timerDocument (snd it) = path) (timers s).

(** The document whose diagnostics an event replaces in state [s]. *)
Definition revalidated (s : Extension) (e : Event) : option string :=
  match e with
  | DidChangeActiveTextEditor (Some document) =>
    if isMetaModelPath (fsPath document) then Some (fsPath document)
    else None
  | TimerFires id => timerDocument <$> timers s !! id
  | _ => None
  end.

(** No event of the run replaces the diagnostics of [path]. *)
Fixpoint quietFor (path : string) (s : Extension) (events : list Event)
  : Prop :=
  match events with
  | [] => True
  | e :: events' =>
    revalidated s e ≠ Some path ∧ quietFor path (step s e) events'
  end.

(** An open event that reaches the timer code of the open handler. *)
Definition opensMetaModel (e : Event) : bool :=
  match e with
  | DidOpenTextDocument document => isMetaModelPath (fsPath document)
  | _ => false
  end.

(** Metamodel documents are opened only while no timeout is pending. *)
Fixpoint opensWhenIdle (s : Extension) (events : list Event) : Prop :=
  match events with
  | [] => True
  | e :: events' =>
    (opensMetaModel e = true -> timers s = ∅)
    ∧ opensWhenIdle (step s e) events'
  end.

End Lifecycle.

(** Every pending timeout is the one the shared handle refers to. *)
Definition tracked (s : Extension) : Prop :=
  forall id, is_Some (timers s !! id) -> waitingForUpdatingDiagnostic s = Some id.

(** ** Reading the provider results *)

(** How many entries the editor shows for a provider result; it shows none
    for [null]. *)
Definition suggestionCount (r : option CompletionList) : nat :=
  match r with
  | None => 0
  | Some (ValueItems values) => length values
  | Some (KeyItems keys) => length keys
  end.

(** The concatenation of line 264. *)
Definition concatTypedProperties (dtParser : DigitalTwinMetaModelParser)
    (dtContext : DigitalTwinMetaModelContext) (types : list string)
  : list TypedProperty :=
  flat_map (getTypedPropertiesFromType dtParser dtContext) types.

(** The first entry of a key list that carries a given label. *)
Definition firstWithLabel (keyList : list TypedProperty) (l : string)
  : option TypedProperty :=
  find (fun k => String.eqb (label k) l) keyList.

(** Whether some entry with a given label is required. *)
Definition anyRequired (keyList : list TypedProperty) (l : string) : bool :=
  existsb (fun k => String.eqb (label k) l && required k) keyList.

(** The range type the specification asks for: "first non-null wins" among
    the entries with a given label. *)
Fixpoint spec_firstNonNullType (keyList : list TypedProperty) (l : string)
  : option string :=
  match keyList with
  | [] => None
  | k :: keyList' =>
    if String.eqb (label k) l then
      match type k with
      | Some t => Some t
      | None => spec_firstNonNullType keyList' l
      end
    else spec_firstNonNullType keyList' l
  end.

(** Labels that an object created by [{}] does not already answer to. *)
Definition plainLabel (l : string) : bool :=
  negb (String.eqb l "__proto__") && negb (isPrototypeMethod l).

(** The context type and the context that [provideCompletionItems] works
    with at a position. *)
Definition contextTypeAt (json : DigitalTwinMetaModelJsonParser)
    (document : TextDocument) (position : Position) : string :=
  getDigitalTwinContextTypeAtPosition json document position
    (getDocumentType document).

Definition contextAt (json : DigitalTwinMetaModelJsonParser)
    (document : TextDocument) (position : Position)
  : DigitalTwinMetaModelContext :=
  if String.eqb (contextTypeAt json document position) "Interface"
  then dtInterface else dtCapabilityModel.

Definition contextUri (contextType : string) : string :=
  if String.eqb contextType "Interface"
  then "http://azureiot.com/v0/contexts/Interface.json"
  else "http://azureiot.com/v0/contexts/CapabilityModel.json".

(** The fields of a value that is known not to be [undefined]. *)
Definition fieldRequired (v : JsValue) : option bool :=
  match v with
  | JsEntry e => Some (entryRequired e)
  | _ => None
  end.

Definition fieldType (v : JsValue) : option string :=
  match v with
  | JsEntry e => entryType e
  | _ => None
  end.

(** The record that [mergeKey] stores for a key object. *)
Definition mergedEntry (o : JsObject) (keyObject : TypedProperty)
  : CompletionEntry :=
  let current := jsGet o (label keyObject) in
  {| entryRequired :=
       if jsTruthy current
       then jsOr (fieldRequired current) (required keyObject)
       else required keyObject;
     entryType :=
       if jsTruthy current then fieldType current else type keyObject |}.

Definition mergeStep (o : JsObject) (keyObject : TypedProperty) : JsObject :=
  jsSet o (label keyObject) (mergedEntry o keyObject).

(** The key object that [pushKey] builds for a key. *)
Definition propertyOf (o : JsObject) (key : string) : TypedProperty :=
  {| label := key;
     required := asBoolean (fieldRequired (jsGet o key));
     type := fieldType (jsGet o key) |}.

(** The object that the first loop of [mergedKeyList] leaves behind. *)
Definition mergedObject (dtParser : DigitalTwinMetaModelParser)
    (dtContext : DigitalTwinMetaModelContext) (types : list string) : JsObject :=
  fold_left mergeStep (concatTypedProperties dtParser dtContext types)
    emptyObject.

(** The three candidates that the provider synthesizes. *)
Definition typeKey : TypedProperty :=
  {| label := "@type"; required := true; type := None |}.

Definition contextKey : TypedProperty :=
  {| label := "@context"; required := true; type := None |}.

Definition idKey : TypedProperty :=
  {| label := "@id"; required := true; type := Some "string" |}.

(** The key list that [completeKey] filters, as a value. *)
Definition keyListOf (dtParser : DigitalTwinMetaModelParser)
    (dtContext : DigitalTwinMetaModelContext) (jsonType : JsonType)
  : list TypedProperty :=
  if typeResolved jsonType then
    match jsonType with
    | TypeNames types =>
      let o := mergedObject dtParser dtContext types in
      map (propertyOf o) (objectKeys o)
    | TypeName t => getTypedPropertiesFromType dtParser dtContext t
    | TypeUndefined => []
    end
  else [typeKey].

(** The candidates of a key position, as a value. *)
Definition keyCandidates (dtParser : DigitalTwinMetaModelParser)
    (dtContext : DigitalTwinMetaModelContext) (jsonInfo : JsonInfo)
  : list TypedProperty :=
  let jsonType := inferType dtParser dtContext jsonInfo in
  (if isRootType jsonType && absent jsonInfo "@context" then [contextKey] else [])
  ++ List.filter (fun k => absent jsonInfo (label k))
       (keyListOf dtParser dtContext jsonType)
  ++ (if isRootType jsonType && absent jsonInfo "@id" then [idKey] else []).

(** ** A small ontology and cursor positions for concrete runs *)

Module Sample.

Definition typedProperties (t : string) : list TypedProperty :=
  if String.eqb t "Telemetry" then
    [ {| label := "name"; required := true; type := Some "string" |};
      {| label := "schema"; required := false; type := None |} ]
  else if String.eqb t "Property" then
    [ {| label := "schema"; required := true; type := Some "Schema" |};
      {| label := "writable"; required := false; type := Some "boolean" |} ]
  else if String.eqb t "Interface" then
    [ {| label := "contents"; required := false; type := None |} ]
  else [].

Definition dtParser : DigitalTwinMetaModelParser :=
  {| getIdFromShortName := fun _ name =>
       match name with
       | Some n =>
         if String.eqb n "contents"
         then Some "http://azureiot.com/v0/classes/contents"
         else None
       | None => None
       end;
     getTypesFromId := fun _ id =>
       if String.eqb id "http://azureiot.com/v0/classes/contents"
       then ["Telemetry"; "Property"]
       else [];
     getTypedPropertiesFromType := fun _ t => typedProperties t;
     getStringValuesFromShortName := fun _ _ => [];
     getCommentFromId := fun id =>
       if String.eqb id "http://azureiot.com/v0/classes/contents"
       then Some "The capabilities of an interface."
       else None |}.

(** The same ontology with a comment recorded for [@value]. *)
Definition annotated : DigitalTwinMetaModelParser :=
  {| getIdFromShortName := getIdFromShortName dtParser;
     getTypesFromId := getTypesFromId dtParser;
     getTypedPropertiesFromType := getTypedPropertiesFromType dtParser;
     getStringValuesFromShortName := getStringValuesFromShortName dtParser;
     getCommentFromId := fun id =>
       if String.eqb id "@value" then Some "The value of an enum entry."
       else getCommentFromId dtParser id |}.

(** The position parser restricted to the one cursor position under
    study: it reports [id] and [jsonInfo] there and keeps the context type
    of the document. *)
Definition at_ (id : option string) (jsonInfo : option JsonInfo)
  : DigitalTwinMetaModelJsonParser :=
  {| getIdAtPosition := fun _ _ _ => id;
     getJsonInfoAtPosition := fun _ _ => jsonInfo;
     getDigitalTwinContextTypeAtPosition := fun _ _ documentType =>
       documentType |}.

Definition thermostat : TextDocument :=
  {| fsPath := "/models/thermostat.interface.json"; getText := "{}" |}.

Definition hub : TextDocument :=
  {| fsPath := "/models/hub.capabilitymodel.json"; getText := "{}" |}.

Definition readme : TextDocument :=
  {| fsPath := "/models/README.md"; getText := "# Models" |}.

Definition cursor : Position := {| line := 0; character := 1 |}.

(** A validation that reports an object without keys. *)
Definition dtDiagnostic : DigitalTwinDiagnostic :=
  {| validate := fun _ document =>
       if String.eqb (getText document) "{}"
       then [ {| startOffset := 0; endOffset := 2;
                 message := "Missing required properties: @id, @type, @context." |} ]
       else [] |}.

Definition keyPosition (t : JsonType) (present : list string) : JsonInfo :=
  {| isValue := false; key := ""; lastKey := None; infoType := t;
     properties := present |}.

Definition valuePosition (k : string) (parent : option string) : JsonInfo :=
  {| isValue := true; key := k; lastKey := parent;
     infoType := TypeUndefined; properties := [k] |}.

End Sample.

(** ** Further readings of the model *)

(** The context that [revalidate] picks for a path. *)
Definition contextOfPath (path : string) : DigitalTwinMetaModelContext :=
  if endsWith path ".interface.json" then dtInterface else dtCapabilityModel.

(** Timers and diagnostics concern metamodel paths only, and every
    diagnostic list is the validation of some text of its document in the
    context of its path. *)
Definition diagnosticsCoherent (dtDiagnostic : DigitalTwinDiagnostic)
    (s : Extension) : Prop :=
  (forall id t,
      timers s !! id = Some t -> isMetaModelPath (timerDocument t) = true)
  ∧ (forall path l,
        diagnostics s !! path = Some l ->
        isMetaModelPath path = true
        ∧ exists text,
            l = validate dtDiagnostic (contextOfPath path)
                  {| fsPath := path; getText := text |}).

(** A burst of edits of one document, one event per text. *)
Definition editBurst (path : string) (texts : list string) : list Event :=
  map (fun text =>
         DidChangeTextDocument {| fsPath := path; getText := text |})
    texts.

(** The document an editor event is about. *)
Definition eventDocument (e : Event) : option TextDocument :=
  match e with
  | DidOpenTextDocument document => Some document
  | DidChangeTextDocument document => Some document
  | DidChangeActiveTextEditor editor => editor
  | DidCloseTextDocument document => Some document
  | TimerFires _ => None
  end.

(** The distinct labels of a list, each at its first occurrence. *)
Fixpoint distinctLabels (labels : list string) : list string :=
  match labels with
  | [] => []
  | l :: labels' =>
    l :: List.filter (fun l' => negb (String.eqb l' l)) (distinctLabels labels')
  end.

(** ** The [iotworkbench.sendTelemetry] command

    The command copies the caller's properties over three defaults and
    sends the result as the [openTutorial] event.  Both objects hold
    strings.  The caller's object is given by its own properties in the
    order of [Object.keys]; the object that is sent is given by its own
    properties in the order in which they were created. *)

Fixpoint propertyLookup (k : string) (l : list (string * string))
  : option string :=
  match l with
  | [] => None
  | (k', v) :: l' => if String.eqb k' k then Some v else propertyLookup k l'
  end.

Fixpoint propertyStore (k v : string) (l : list (string * string))
  : list (string * string) :=
  match l with
  | [] => [(k, v)]
  | (k', v') :: l' =>
    if String.eqb k' k then (k', v) :: l' else (k', v') :: propertyStore k v l'
  end.

(** [properties[key] = value] for a string [value]: the setter of
    ["__proto__"] ignores a value that is not an object, any other key
    becomes or stays an own property. *)
Definition setProperty (properties : list (string * string)) (k v : string)
  : list (string * string) :=
  if String.eqb k "__proto__" then properties else propertyStore k v properties.

(** [{properties, measurements: {duration: 0}}] *)
Record TelemetryContext := {
  telemetryProperties : list (string * string);
  duration : nat
}.

Definition telemetryDefaults : list (string * string) :=
  [ ("result", "Succeeded"); ("error", ""); ("errorMessage", "") ].

(** Lines 453-470; the result is the context handed to
    [TelemetryWorker.sendEvent].  [Object.keys] throws on [undefined]. *)
Definition sendTelemetry (additionalProperties : option (list (string * string)))
  : Completion TelemetryContext :=
  additional ← deref additionalProperties;
  let properties :=
    fold_left
      (fun properties k =>
         setProperty properties k (default "" (propertyLookup k additional)))
      (map fst additional) telemetryDefaults in
  Normal {| telemetryProperties := properties; duration := 0 |}.

(** * Properties *)

(** ** Arrays of strings *)

Lemma indexOfFrom_spec (l : list string) (x : string) (i : Z) :
  (0 <= i)%Z ->
  (x ∈ l ∧ (i <= indexOfFrom i l x)%Z) ∨ ((x ∉ l) ∧ indexOfFrom i l x = (-1)%Z).
Proof.
  revert i. induction l as [|y l IH]; intros i Hi; simpl.
  - right. split; [apply not_elem_of_nil | reflexivity].
  - destruct (String.eqb_spec y x) as [->|Hne].
    + left. split; [left | lia].
    + destruct (IH (i + 1)%Z ltac:(lia)) as [[Hin Hle]|[Hnin Heq]].
      * left. split; [by right | lia].
      * right. split; [|exact Heq].
        intros Hin. apply elem_of_cons in Hin as [->|Hin]; [by apply Hne|auto].
Qed.

Lemma indexOf_absent (l : list string) (x : string) :
  indexOf l x = (-1)%Z ↔ x ∉ l.
Proof.
  unfold indexOf.
  destruct (indexOfFrom_spec l x 0 ltac:(lia)) as [[Hin Hle]|[Hnin Heq]].
  - split; [lia | tauto].
  - tauto.
Qed.

Lemma absent_true (jsonInfo : JsonInfo) (k : string) :
  absent jsonInfo k = true ↔ k ∉ properties jsonInfo.
Proof.
  unfold absent. rewrite Z.eqb_eq. apply indexOf_absent.
Qed.

Lemma absent_false (jsonInfo : JsonInfo) (k : string) :
  absent jsonInfo k = false ↔ k ∈ properties jsonInfo.
Proof.
  destruct (absent jsonInfo k) eqn:E.
  - apply absent_true in E. split; [discriminate | tauto].
  - split; [|reflexivity]. intros _.
    destruct (decide (k ∈ properties jsonInfo)) as [|Hn]; [assumption|].
    apply absent_true in Hn. congruence.
Qed.

(** The push loops are a concatenation and a filter. *)
Lemma push_all_is_flat_map {A B} (f : A -> list B) (l : list A) (init : list B) :
  fold_left (fun acc a => acc ++ f a) l init = init ++ flat_map f l.
Proof.
  revert init. induction l as [|a l IH]; intros init; simpl.
  - by rewrite app_nil_r.
  - rewrite IH. by rewrite app_assoc.
Qed.

Lemma push_absent_is_filter (jsonInfo : JsonInfo) (keyList init : list TypedProperty) :
  fold_left
    (fun acc k => if absent jsonInfo (label k) then acc ++ [k] else acc)
    keyList init
  = init ++ List.filter (fun k => absent jsonInfo (label k)) keyList.
Proof.
  revert init. induction keyList as [|k keyList IH]; intros init; simpl.
  - by rewrite app_nil_r.
  - rewrite IH. destruct (absent jsonInfo (label k)); [|reflexivity].
    by rewrite <- app_assoc.
Qed.

(** ** The loops never throw *)

Lemma forOf_normal {A S} (body : S -> A -> Completion S) (f : S -> A -> S)
    (l : list A) (s : S) :
  (forall s a, body s a = Normal (f s a)) ->
  forOf body l s = Normal (fold_left f l s).
Proof.
  intros Hbody. revert s. induction l as [|a l IH]; intros s; simpl.
  - reflexivity.
  - rewrite Hbody. simpl. apply IH.
Qed.

Lemma readRequired_truthy (v : JsValue) :
  jsTruthy v = true -> readRequired v = Normal (fieldRequired v).
Proof. destruct v; simpl; intros; congruence. Qed.

Lemma readType_truthy (v : JsValue) :
  jsTruthy v = true -> readType v = Normal (fieldType v).
Proof. destruct v; simpl; intros; congruence. Qed.

Lemma mergeKey_normal (o : JsObject) (keyObject : TypedProperty) :
  mergeKey o keyObject = Normal (mergeStep o keyObject).
Proof.
  unfold mergeKey, mergeStep, mergedEntry.
  destruct (jsTruthy (jsGet o (label keyObject))) eqn:E.
  - rewrite readRequired_truthy, readType_truthy by assumption. reflexivity.
  - reflexivity.
Qed.

(** ** Own properties and [Object.keys] *)

Lemma ownLookup_None (k : string) (l : list (string * CompletionEntry)) :
  ownLookup k l = None ↔ k ∉ l.*1.
Proof.
  induction l as [|[k' e] l IH]; simpl.
  - split; [intros _; apply not_elem_of_nil | reflexivity].
  - rewrite not_elem_of_cons. destruct (String.eqb_spec k' k) as [->|Hne].
    + split; [discriminate | intros [Hk _]; by destruct Hk].
    + rewrite IH. split; [intros H; split; [congruence | exact H] | tauto].
Qed.

Lemma ownLookup_is_Some (k : string) (l : list (string * CompletionEntry)) :
  k ∈ l.*1 -> is_Some (ownLookup k l).
Proof.
  intros Hin. destruct (ownLookup k l) eqn:E; [eauto|].
  apply ownLookup_None in E. contradiction.
Qed.

Lemma ownLookup_store (k k' : string) (e : CompletionEntry)
    (l : list (string * CompletionEntry)) :
  ownLookup k' (ownStore k e l)
  = if String.eqb k k' then Some e else ownLookup k' l.
Proof.
  induction l as [|[k0 e0] l IH]; simpl.
  - destruct (String.eqb_spec k k'); reflexivity.
  - destruct (String.eqb_spec k0 k) as [->|Hne]; simpl.
    + destruct (String.eqb_spec k k'); reflexivity.
    + rewrite IH. destruct (String.eqb_spec k0 k') as [->|Hne'].
      * destruct (String.eqb_spec k k'); [congruence | reflexivity].
      * reflexivity.
Qed.

Lemma ownStore_keys (k k' : string) (e : CompletionEntry)
    (l : list (string * CompletionEntry)) :
  k' ∈ (ownStore k e l).*1 ↔ k' = k ∨ k' ∈ l.*1.
Proof.
  induction l as [|[k0 e0] l IH]; simpl.
  - rewrite list_elem_of_singleton. split; [tauto|].
    intros [H|H]; [exact H | by apply not_elem_of_nil in H].
  - destruct (String.eqb_spec k0 k) as [->|Hne]; simpl.
    + rewrite !elem_of_cons. tauto.
    + rewrite !elem_of_cons, IH. tauto.
Qed.

Lemma ownStore_NoDup (k : string) (e : CompletionEntry)
    (l : list (string * CompletionEntry)) :
  NoDup l.*1 -> NoDup (ownStore k e l).*1.
Proof.
  induction l as [|[k0 e0] l IH]; simpl; intros Hnd.
  - apply NoDup_singleton.
  - apply NoDup_cons in Hnd as [Hnin Hnd].
    destruct (String.eqb_spec k0 k) as [->|Hne]; simpl.
    + by apply NoDup_cons.
    + apply NoDup_cons. split; [|auto].
      rewrite ownStore_keys. intros [->|Hin]; [by apply Hne | contradiction].
Qed.

Lemma jsGet_own (o : JsObject) (k : string) (e : CompletionEntry) :
  ownLookup k (own o) = Some e -> jsGet o k = JsEntry e.
Proof. intros H. unfold jsGet. by rewrite H. Qed.

Lemma insertIndex_perm (i : N) (k : string) (l : list (N * string)) :
  insertIndex i k l ≡ₚ (i, k) :: l.
Proof.
  induction l as [|[j k'] l IH]; simpl; [reflexivity|].
  destruct (i <=? j)%N; [reflexivity|].
  rewrite IH. apply Permutation_swap.
Qed.

Lemma keys_order_perm (keys : list string) :
  map snd (indexKeys keys) ++ namedKeys keys ≡ₚ keys.
Proof.
  induction keys as [|k keys IH]; simpl; [reflexivity|].
  destruct (arrayIndex k) as [i|].
  - rewrite insertIndex_perm. simpl. by rewrite IH.
  - rewrite <- Permutation_middle. by rewrite IH.
Qed.

Lemma objectKeys_perm (o : JsObject) : objectKeys o ≡ₚ (own o).*1.
Proof. apply keys_order_perm. Qed.

Lemma objectKeys_own (o : JsObject) (k : string) :
  k ∈ objectKeys o ↔ k ∈ (own o).*1.
Proof. by rewrite objectKeys_perm. Qed.

Lemma pushKey_normal (o : JsObject) (acc : list TypedProperty) (k : string) :
  k ∈ (own o).*1 -> pushKey o acc k = Normal (acc ++ [propertyOf o k]).
Proof.
  intros Hin. destruct (ownLookup_is_Some _ _ Hin) as [e He].
  unfold pushKey, propertyOf. rewrite (jsGet_own _ _ _ He). reflexivity.
Qed.

Lemma forOf_pushKey (o : JsObject) (keys : list string) (acc : list TypedProperty) :
  (forall k, k ∈ keys -> k ∈ (own o).*1) ->
  forOf (pushKey o) keys acc = Normal (acc ++ map (propertyOf o) keys).
Proof.
  revert acc. induction keys as [|k keys IH]; intros acc Hown; simpl.
  - by rewrite app_nil_r.
  - rewrite pushKey_normal by (apply Hown; left). simpl.
    rewrite IH by (intros k' Hk'; apply Hown; by right).
    by rewrite <- app_assoc.
Qed.

Lemma mergedKeyList_normal (dtParser : DigitalTwinMetaModelParser)
    (dtContext : DigitalTwinMetaModelContext) (types : list string) :
  mergedKeyList dtParser dtContext types
  = Normal (map (propertyOf (mergedObject dtParser dtContext types))
              (objectKeys (mergedObject dtParser dtContext types))).
Proof.
  unfold mergedKeyList.
  rewrite (push_all_is_flat_map
             (getTypedPropertiesFromType dtParser dtContext) types []).
  simpl. rewrite (forOf_normal mergeKey mergeStep) by apply mergeKey_normal.
  simpl. apply forOf_pushKey. intros k Hk. by apply objectKeys_own.
Qed.

Lemma isRootType_resolved (t : JsonType) :
  isRootType t = true -> typeResolved t = true.
Proof.
  destruct t as [|s|l]; simpl; try discriminate.
  destruct (String.eqb_spec s "Interface") as [->|]; [reflexivity|].
  destruct (String.eqb_spec s "CapabilityModel") as [->|]; [reflexivity|].
  discriminate.
Qed.

Lemma completeKey_normal (dtParser : DigitalTwinMetaModelParser)
    (dtContext : DigitalTwinMetaModelContext) (jsonInfo : JsonInfo) :
  completeKey dtParser dtContext jsonInfo
  = Normal (Some (KeyItems (keyCandidates dtParser dtContext jsonInfo))).
Proof.
  unfold completeKey, keyCandidates, keyListOf.
  set (jsonType := inferType dtParser dtContext jsonInfo).
  pose proof (isRootType_resolved jsonType) as Hroot.
  set (idPart := isRootType jsonType && absent jsonInfo "@id").
  destruct (typeResolved jsonType) eqn:Hres.
  - rewrite andb_true_l.
    set (ctxPart := isRootType jsonType && absent jsonInfo "@context").
    destruct jsonType as [|s|l]; [discriminate Hres| |].
    + cbn [mbind Completion_bind]. rewrite push_absent_is_filter.
      destruct idPart; [by rewrite <- app_assoc | by rewrite app_nil_r].
    + rewrite mergedKeyList_normal. cbn [mbind Completion_bind].
      rewrite push_absent_is_filter.
      destruct idPart; [by rewrite <- app_assoc | by rewrite app_nil_r].
  - rewrite andb_false_l.
    destruct (isRootType jsonType) eqn:Hr; [by specialize (Hroot eq_refl)|].
    subst idPart. rewrite !andb_false_l. cbn [mbind Completion_bind].
    rewrite push_absent_is_filter. by rewrite app_nil_r.
Qed.

Lemma provideCompletionItems_key (dtParser : DigitalTwinMetaModelParser)
    (json : DigitalTwinMetaModelJsonParser) (document : TextDocument)
    (position : Position) (jsonInfo : JsonInfo) :
  getJsonInfoAtPosition json document position = Some jsonInfo ->
  isValue jsonInfo = false ->
  provideCompletionItems dtParser json document position
  = Normal (Some (KeyItems
                    (keyCandidates dtParser (contextAt json document position)
                       jsonInfo))).
Proof.
  intros Hinfo Hkey. unfold provideCompletionItems. rewrite Hinfo. simpl.
  rewrite Hkey. apply completeKey_normal.
Qed.

Lemma provideCompletionItems_value (dtParser : DigitalTwinMetaModelParser)
    (json : DigitalTwinMetaModelJsonParser) (document : TextDocument)
    (position : Position) (jsonInfo : JsonInfo) :
  getJsonInfoAtPosition json document position = Some jsonInfo ->
  isValue jsonInfo = true ->
  provideCompletionItems dtParser json document position
  = completeValue dtParser (contextAt json document position)
      (contextTypeAt json document position) jsonInfo.
Proof.
  intros Hinfo Hval. unfold provideCompletionItems. rewrite Hinfo. simpl.
  by rewrite Hval.
Qed.

Lemma elem_of_List_filter {A} (f : A -> bool) (l : list A) (x : A) :
  x ∈ List.filter f l ↔ f x = true ∧ x ∈ l.
Proof. rewrite !list_elem_of_In, filter_In. tauto. Qed.

Lemma keyCandidates_absent (dtParser : DigitalTwinMetaModelParser)
    (dtContext : DigitalTwinMetaModelContext) (jsonInfo : JsonInfo)
    (c : TypedProperty) :
  c ∈ keyCandidates dtParser dtContext jsonInfo ->
  absent jsonInfo (label c) = true.
Proof.
  unfold keyCandidates. rewrite !elem_of_app, elem_of_List_filter.
  intros [Hc|[[Hc _]|Hc]].
  - destruct (absent jsonInfo "@context") eqn:E;
      rewrite ?andb_false_r in Hc; [|by apply elem_of_nil in Hc].
    destruct (isRootType _); [|by apply elem_of_nil in Hc].
    apply list_elem_of_singleton in Hc as ->. exact E.
  - exact Hc.
  - destruct (absent jsonInfo "@id") eqn:E;
      rewrite ?andb_false_r in Hc; [|by apply elem_of_nil in Hc].
    destruct (isRootType _); [|by apply elem_of_nil in Hc].
    apply list_elem_of_singleton in Hc as ->. exact E.
Qed.

(** ** Key positions *)

(** C4: at a key position the provider answers with a key list, and no
    candidate of that list carries a label that is already among the
    enclosing object's keys.  In particular a key that has been inserted,
    and is therefore among the keys of the next request, is not a candidate
    of that request. *)
Theorem key_candidates_exclude_present_keys
    (dtParser : DigitalTwinMetaModelParser)
    (json : DigitalTwinMetaModelJsonParser) (document : TextDocument)
    (position : Position) (jsonInfo : JsonInfo) :
  getJsonInfoAtPosition json document position = Some jsonInfo ->
  isValue jsonInfo = false ->
  exists keys,
    provideCompletionItems dtParser json document position
    = Normal (Some (KeyItems keys))
    ∧ (forall c, c ∈ keys -> label c ∉ properties jsonInfo)
    ∧ (forall k, k ∈ properties jsonInfo -> k ∉ map label keys).
Proof.
  intros Hinfo Hkey. eexists. split; [by apply provideCompletionItems_key|].
  assert (Hall : forall c,
             c ∈ keyCandidates dtParser (contextAt json document position)
                   jsonInfo ->
             label c ∉ properties jsonInfo).
  { intros c Hc. apply absent_true. by eapply keyCandidates_absent. }
  split; [exact Hall|].
  intros k Hk Hin. apply list_elem_of_fmap in Hin as (c & -> & Hc).
  by apply (Hall c).
Qed.

Lemma key_candidates_exclude_present_keys_witness :
  exists keys,
    provideCompletionItems Sample.dtParser
      (Sample.at_ None
         (Some (Sample.keyPosition (TypeName "Interface") ["@type"; "@id"])))
      Sample.thermostat Sample.cursor
    = Normal (Some (KeyItems keys))
    ∧ (forall c, c ∈ keys -> label c ∉ ["@type"; "@id"])
    ∧ (forall k, k ∈ ["@type"; "@id"] -> k ∉ map label keys).
Proof.
  apply (key_candidates_exclude_present_keys Sample.dtParser
           (Sample.at_ None
              (Some (Sample.keyPosition (TypeName "Interface") ["@type"; "@id"])))
           Sample.thermostat Sample.cursor
           (Sample.keyPosition (TypeName "Interface") ["@type"; "@id"]));
    reflexivity.
Defined.

(** C8, as the code has it: when no type is resolved for the enclosing
    object, the candidate list is the single required entry [@type] if the
    object has no [@type] key yet, and it is empty if it has one. *)
Theorem unresolved_type_candidates
    (dtParser : DigitalTwinMetaModelParser)
    (json : DigitalTwinMetaModelJsonParser) (document : TextDocument)
    (position : Position) (jsonInfo : JsonInfo) :
  getJsonInfoAtPosition json document position = Some jsonInfo ->
  isValue jsonInfo = false ->
  typeResolved
    (inferType dtParser (contextAt json document position) jsonInfo) = false ->
  provideCompletionItems dtParser json document position
  = Normal (Some (KeyItems
                    (if absent jsonInfo "@type" then [typeKey] else []))).
Proof.
  intros Hinfo Hkey Hres.
  rewrite (provideCompletionItems_key _ _ _ _ _ Hinfo Hkey).
  unfold keyCandidates, keyListOf. rewrite Hres.
  destruct (isRootType _) eqn:Hroot.
  - apply isRootType_resolved in Hroot. congruence.
  - simpl. rewrite app_nil_r. reflexivity.
Qed.

Lemma unresolved_type_candidates_witness :
  provideCompletionItems Sample.dtParser
    (Sample.at_ None (Some (Sample.keyPosition TypeUndefined [])))
    Sample.thermostat Sample.cursor
  = Normal (Some (KeyItems [typeKey])).
Proof.
  apply (unresolved_type_candidates Sample.dtParser
           (Sample.at_ None (Some (Sample.keyPosition TypeUndefined [])))
           Sample.thermostat Sample.cursor
           (Sample.keyPosition TypeUndefined []));
    reflexivity.
Defined.

(** C8 as stated fails: an object whose [@type] key is present with an
    empty value has no resolvable type, and the candidate list is empty
    instead of the single entry [@type]. *)
Lemma unresolved_type_with_type_key :
  typeResolved
    (inferType Sample.dtParser dtInterface
       (Sample.keyPosition (TypeName "") ["@type"])) = false
  ∧ provideCompletionItems Sample.dtParser
      (Sample.at_ None (Some (Sample.keyPosition (TypeName "") ["@type"])))
      Sample.thermostat Sample.cursor
    = Normal (Some (KeyItems []))
  ∧ provideCompletionItems Sample.dtParser
      (Sample.at_ None (Some (Sample.keyPosition (TypeName "") ["@type"])))
      Sample.thermostat Sample.cursor
    ≠ Normal (Some (KeyItems [typeKey])).
Proof. split; [reflexivity|]. split; [reflexivity | discriminate]. Qed.

(** C9, as the code has it: when the enclosing object's type is the single
    name [Interface] or [CapabilityModel], the candidates include the
    required [@context] unless that key is present and the required [@id]
    unless that key is present. *)
Theorem root_kind_candidates
    (dtParser : DigitalTwinMetaModelParser)
    (json : DigitalTwinMetaModelJsonParser) (document : TextDocument)
    (position : Position) (jsonInfo : JsonInfo) :
  getJsonInfoAtPosition json document position = Some jsonInfo ->
  isValue jsonInfo = false ->
  infoType jsonInfo = TypeName "Interface"
  ∨ infoType jsonInfo = TypeName "CapabilityModel" ->
  exists keys,
    provideCompletionItems dtParser json document position
    = Normal (Some (KeyItems keys))
    ∧ ("@context" ∉ properties jsonInfo -> contextKey ∈ keys)
    ∧ ("@id" ∉ properties jsonInfo -> idKey ∈ keys).
Proof.
  intros Hinfo Hkey Hroot. eexists.
  split; [by apply provideCompletionItems_key|].
  set (dtContext := contextAt json document position).
  assert (Ht : isRootType (inferType dtParser dtContext jsonInfo) = true).
  { unfold inferType. destruct Hroot as [-> | ->]; reflexivity. }
  unfold keyCandidates. rewrite Ht. simpl.
  split; intros Habs; apply absent_true in Habs; rewrite Habs.
  - by left.
  - rewrite !elem_of_app. right. right. by left.
Qed.

Lemma root_kind_candidates_witness :
  exists keys,
    provideCompletionItems Sample.dtParser
      (Sample.at_ None
         (Some (Sample.keyPosition (TypeName "Interface") ["@type"])))
      Sample.thermostat Sample.cursor
    = Normal (Some (KeyItems keys))
    ∧ ("@context" ∉ ["@type"] -> contextKey ∈ keys)
    ∧ ("@id" ∉ ["@type"] -> idKey ∈ keys).
Proof.
  apply (root_kind_candidates Sample.dtParser
           (Sample.at_ None
              (Some (Sample.keyPosition (TypeName "Interface") ["@type"])))
           Sample.thermostat Sample.cursor
           (Sample.keyPosition (TypeName "Interface") ["@type"]));
    [reflexivity | reflexivity | left; reflexivity].
Defined.

(** C9 as stated fails for the array form: with the type given as the
    array [["Interface"]] and neither key present, the candidates are the
    typed properties alone; [@context] and [@id] are not among them. *)
Lemma root_kind_in_array_not_injected :
  provideCompletionItems Sample.dtParser
    (Sample.at_ None
       (Some (Sample.keyPosition (TypeNames ["Interface"]) ["@type"])))
    Sample.thermostat Sample.cursor
  = Normal (Some (KeyItems
                    [ {| label := "contents"; required := false;
                         type := None |} ]))
  ∧ ("@context" ∉ map label
       [ {| label := "contents"; required := false; type := None |} ])
  ∧ ("@id" ∉ map label
       [ {| label := "contents"; required := false; type := None |} ]).
Proof.
  split; [reflexivity|].
  split; intros H; apply list_elem_of_singleton in H; discriminate.
Qed.

(** ** Value positions *)

Lemma truthy_Some (v : option string) :
  truthy v = true -> exists s, v = Some s ∧ s ≠ "".
Proof.
  destruct v as [s|]; simpl; [|discriminate].
  destruct (String.eqb_spec s ""); [discriminate|]. eauto.
Qed.

(** C5, as the code has it: on the value of [@type], a parent key that
    resolves to an id gives exactly the declared types of that id; a parent
    key that does not resolve gives [null]; without a parent key the single
    candidate is the context type of the position. *)
Theorem type_value_candidates
    (dtParser : DigitalTwinMetaModelParser)
    (json : DigitalTwinMetaModelJsonParser) (document : TextDocument)
    (position : Position) (jsonInfo : JsonInfo) :
  getJsonInfoAtPosition json document position = Some jsonInfo ->
  isValue jsonInfo = true ->
  key jsonInfo = "@type" ->
  let dtContext := contextAt json document position in
  let result := provideCompletionItems dtParser json document position in
  (forall id,
      truthy (lastKey jsonInfo) = true ->
      getIdFromShortName dtParser dtContext (lastKey jsonInfo) = Some id ->
      id ≠ "" ->
      result = Normal (Some (ValueItems (getTypesFromId dtParser dtContext id))))
  ∧ (truthy (lastKey jsonInfo) = true ->
     truthy (getIdFromShortName dtParser dtContext (lastKey jsonInfo)) = false ->
     result = Normal None)
  ∧ (truthy (lastKey jsonInfo) = false ->
     result
     = Normal (Some (ValueItems [contextTypeAt json document position]))).
Proof.
  intros Hinfo Hval Hk dtContext result. subst result.
  rewrite (provideCompletionItems_value _ _ _ _ _ Hinfo Hval).
  unfold completeValue. rewrite Hk. simpl. fold dtContext.
  split; [|split].
  - intros id Hlast Hid Hne. rewrite Hlast, Hid. simpl.
    destruct (String.eqb_spec id ""); [contradiction | reflexivity].
  - intros Hlast Hid. rewrite Hlast, Hid. reflexivity.
  - intros Hlast. rewrite Hlast. reflexivity.
Qed.

Lemma type_value_candidates_witness :
  let jsonInfo := Sample.valuePosition "@type" (Some "contents") in
  let json := Sample.at_ None (Some jsonInfo) in
  let dtContext := contextAt json Sample.thermostat Sample.cursor in
  let result :=
    provideCompletionItems Sample.dtParser json Sample.thermostat
      Sample.cursor in
  (forall id,
      truthy (lastKey jsonInfo) = true ->
      getIdFromShortName Sample.dtParser dtContext (lastKey jsonInfo) = Some id ->
      id ≠ "" ->
      result
      = Normal (Some (ValueItems
                        (getTypesFromId Sample.dtParser dtContext id))))
  ∧ (truthy (lastKey jsonInfo) = true ->
     truthy (getIdFromShortName Sample.dtParser dtContext (lastKey jsonInfo))
     = false ->
     result = Normal None)
  ∧ (truthy (lastKey jsonInfo) = false ->
     result
     = Normal (Some (ValueItems
                       [contextTypeAt json Sample.thermostat Sample.cursor]))).
Proof.
  apply (type_value_candidates Sample.dtParser
           (Sample.at_ None
              (Some (Sample.valuePosition "@type" (Some "contents"))))
           Sample.thermostat Sample.cursor
           (Sample.valuePosition "@type" (Some "contents")));
    reflexivity.
Defined.

(** C5 as stated fails: without a parent key the candidates are the one
    context type of the position, not the two root kind names; and with a
    parent key that does not resolve there is no candidate list at all. *)
Lemma type_value_without_parent :
  provideCompletionItems Sample.dtParser
    (Sample.at_ None (Some (Sample.valuePosition "@type" None)))
    Sample.thermostat Sample.cursor
  = Normal (Some (ValueItems ["Interface"]))
  ∧ provideCompletionItems Sample.dtParser
      (Sample.at_ None (Some (Sample.valuePosition "@type" None)))
      Sample.thermostat Sample.cursor
    ≠ Normal (Some (ValueItems ["Interface"; "CapabilityModel"]))
  ∧ provideCompletionItems Sample.dtParser
      (Sample.at_ None (Some (Sample.valuePosition "@type" (Some "unknown"))))
      Sample.thermostat Sample.cursor
    = Normal None.
Proof. split; [reflexivity|]. split; [discriminate | reflexivity]. Qed.

(** ** Results without candidates *)

(** C10: the provider completes normally on every document and position;
    it never throws.  Where there is nothing to suggest (no JSON
    information at the position, or an [@type] value whose parent key does
    not resolve) the result is the [null] that shows no candidate. *)
Theorem completion_never_throws
    (dtParser : DigitalTwinMetaModelParser)
    (json : DigitalTwinMetaModelJsonParser) (document : TextDocument)
    (position : Position) :
  exists r,
    provideCompletionItems dtParser json document position = Normal r
    ∧ (getJsonInfoAtPosition json document position = None ->
       suggestionCount r = 0)
    ∧ (forall jsonInfo,
          getJsonInfoAtPosition json document position = Some jsonInfo ->
          isValue jsonInfo = true ->
          key jsonInfo = "@type" ->
          truthy (lastKey jsonInfo) = true ->
          truthy (getIdFromShortName dtParser
                    (contextAt json document position) (lastKey jsonInfo))
          = false ->
          suggestionCount r = 0).
Proof.
  destruct (getJsonInfoAtPosition json document position) as [jsonInfo|] eqn:Hinfo.
  - destruct (isValue jsonInfo) eqn:Hval.
    + rewrite (provideCompletionItems_value _ _ _ _ _ Hinfo Hval).
      unfold completeValue.
      destruct (String.eqb (key jsonInfo) "@context") eqn:Hctx.
      { eexists. split; [reflexivity|]. split; [discriminate|].
        intros ? [= <-] _ Hk. rewrite Hk in Hctx. discriminate. }
      destruct (String.eqb (key jsonInfo) "@type") eqn:Hty.
      * destruct (truthy (lastKey jsonInfo)) eqn:Hlast.
        -- destruct (truthy (getIdFromShortName dtParser
                               (contextAt json document position)
                               (lastKey jsonInfo))) eqn:Hid;
             simpl;
             eexists; (split; [reflexivity|]); (split; [discriminate|]).
           ++ intros ? [= <-] _ _ _ Hid'. congruence.
           ++ reflexivity.
        -- eexists. split; [reflexivity|]. split; [discriminate|].
           intros ? [= <-] _ _ Hlast'. congruence.
      * eexists. split; [reflexivity|]. split; [discriminate|].
        intros ? [= <-] _ Hk. rewrite Hk in Hty. discriminate.
    + rewrite (provideCompletionItems_key _ _ _ _ _ Hinfo Hval).
      eexists. split; [reflexivity|]. split; [discriminate|].
      intros ? [= <-] Hval'. congruence.
  - unfold provideCompletionItems. rewrite Hinfo. simpl.
    eexists. split; [reflexivity|]. split; [reflexivity | discriminate].
Qed.

Lemma completion_never_throws_witness :
  exists r,
    provideCompletionItems Sample.dtParser (Sample.at_ None None)
      Sample.thermostat Sample.cursor = Normal r
    ∧ (getJsonInfoAtPosition (Sample.at_ None None) Sample.thermostat
         Sample.cursor = None ->
       suggestionCount r = 0)
    ∧ (forall jsonInfo,
          getJsonInfoAtPosition (Sample.at_ None None) Sample.thermostat
            Sample.cursor = Some jsonInfo ->
          isValue jsonInfo = true ->
          key jsonInfo = "@type" ->
          truthy (lastKey jsonInfo) = true ->
          truthy (getIdFromShortName Sample.dtParser
                    (contextAt (Sample.at_ None None) Sample.thermostat
                       Sample.cursor)
                    (lastKey jsonInfo))
          = false ->
          suggestionCount r = 0).
Proof.
  apply (completion_never_throws Sample.dtParser (Sample.at_ None None)
           Sample.thermostat Sample.cursor).
Defined.

(** ** Hover *)

(** C7, as the code has it: the three reserved keys [@id], [@type] and
    [@context] have a fixed hover text; every other identifier, [@value]
    included, shows its comment from the ontology, or nothing when it has
    none. *)
Theorem hover_text
    (dtParser : DigitalTwinMetaModelParser)
    (json : DigitalTwinMetaModelJsonParser) (document : TextDocument)
    (position : Position) (id : string) :
  getIdAtPosition json document position dtInterface = Some id ->
  let hover := provideHover dtParser json document position in
  (id = "@id" ->
   hover
   = Some "An identifier for Digital Twin capability model or interface.")
  ∧ (id = "@type" ->
     hover = Some "The type of Digital Twin meta model object.")
  ∧ (id = "@context" ->
     hover
     = Some "The context for Digital Twin capability model or interface.")
  ∧ (id ≠ "@id" -> id ≠ "@type" -> id ≠ "@context" -> id ≠ "" ->
     hover
     = if truthy (getCommentFromId dtParser id)
       then getCommentFromId dtParser id else None).
Proof.
  intros Hid hover. subst hover. unfold provideHover. rewrite Hid.
  repeat split.
  - intros ->. reflexivity.
  - intros ->. reflexivity.
  - intros ->. reflexivity.
  - intros H1 H2 H3 H4.
    destruct (String.eqb_spec id ""); [contradiction|].
    destruct (String.eqb_spec id "@id"); [contradiction|].
    destruct (String.eqb_spec id "@type"); [contradiction|].
    destruct (String.eqb_spec id "@context"); [contradiction|].
    reflexivity.
Qed.

Lemma hover_text_witness :
  let json :=
    Sample.at_ (Some "http://azureiot.com/v0/classes/contents") None in
  let id := "http://azureiot.com/v0/classes/contents" in
  let hover :=
    provideHover Sample.dtParser json Sample.thermostat Sample.cursor in
  (id = "@id" ->
   hover
   = Some "An identifier for Digital Twin capability model or interface.")
  ∧ (id = "@type" ->
     hover = Some "The type of Digital Twin meta model object.")
  ∧ (id = "@context" ->
     hover
     = Some "The context for Digital Twin capability model or interface.")
  ∧ (id ≠ "@id" -> id ≠ "@type" -> id ≠ "@context" -> id ≠ "" ->
     hover
     = if truthy (getCommentFromId Sample.dtParser id)
       then getCommentFromId Sample.dtParser id else None).
Proof.
  apply (hover_text Sample.dtParser
           (Sample.at_ (Some "http://azureiot.com/v0/classes/contents") None)
           Sample.thermostat Sample.cursor
           "http://azureiot.com/v0/classes/contents").
  reflexivity.
Defined.

(** C7 as stated fails for [@value]: the hover provider has no text of its
    own for it.  With an ontology that records no comment for [@value]
    nothing is shown, and with one that does, that comment is shown. *)
Lemma hover_value_key_not_fixed :
  provideHover Sample.dtParser (Sample.at_ (Some "@value") None)
    Sample.thermostat Sample.cursor = None
  ∧ provideHover Sample.annotated (Sample.at_ (Some "@value") None)
      Sample.thermostat Sample.cursor
    = Some "The value of an enum entry.".
Proof. split; reflexivity. Qed.

(** ** Merging the key lists of several types *)

Lemma firstWithLabel_snoc (keyList : list TypedProperty) (k : TypedProperty)
    (l : string) :
  firstWithLabel (keyList ++ [k]) l
  = match firstWithLabel keyList l with
    | Some f => Some f
    | None => if String.eqb (label k) l then Some k else None
    end.
Proof.
  unfold firstWithLabel. induction keyList as [|k' keyList IH]; simpl.
  - reflexivity.
  - destruct (String.eqb (label k') l); [reflexivity | exact IH].
Qed.

Lemma anyRequired_snoc (keyList : list TypedProperty) (k : TypedProperty)
    (l : string) :
  anyRequired (keyList ++ [k]) l
  = anyRequired keyList l || (String.eqb (label k) l && required k).
Proof.
  unfold anyRequired. rewrite existsb_app. simpl. by rewrite orb_false_r.
Qed.

Lemma anyRequired_unlabelled (keyList : list TypedProperty) (l : string) :
  firstWithLabel keyList l = None -> anyRequired keyList l = false.
Proof.
  unfold firstWithLabel, anyRequired.
  induction keyList as [|k keyList IH]; simpl; [reflexivity|].
  destruct (String.eqb (label k) l); [discriminate|]. exact IH.
Qed.

Lemma firstWithLabel_label (keyList : list TypedProperty) (l : string)
    (f : TypedProperty) :
  firstWithLabel keyList l = Some f -> f ∈ keyList ∧ label f = l.
Proof.
  unfold firstWithLabel. intros H. apply find_some in H as [Hin Heq].
  split; [by apply list_elem_of_In | by apply String.eqb_eq].
Qed.

Lemma firstWithLabel_present (keyList : list TypedProperty) (k : TypedProperty) :
  k ∈ keyList -> is_Some (firstWithLabel keyList (label k)).
Proof.
  unfold firstWithLabel. induction keyList as [|k' keyList IH]; simpl.
  - intros H. by apply elem_of_nil in H.
  - intros H. destruct (String.eqb_spec (label k') (label k)); [eauto|].
    apply elem_of_cons in H as [->|H]; [congruence | auto].
Qed.

Lemma plainLabel_inherits_nothing (l : string) :
  plainLabel l = true ->
  String.eqb l "__proto__" = false ∧ inheritedFromObjectPrototype l = JsUndefined.
Proof.
  unfold plainLabel, inheritedFromObjectPrototype.
  destruct (String.eqb l "__proto__"); [discriminate|].
  destruct (isPrototypeMethod l); [discriminate | auto].
Qed.

Lemma jsGet_plain (o : JsObject) (l : string) :
  proto o = None -> plainLabel l = true ->
  jsGet o l = match ownLookup l (own o) with
              | Some e => JsEntry e
              | None => JsUndefined
              end.
Proof.
  intros Hproto Hplain.
  destruct (plainLabel_inherits_nothing l Hplain) as [Hp Hi].
  unfold jsGet. rewrite Hproto, Hp, Hi. reflexivity.
Qed.

Lemma mergeStep_NoDup (o : JsObject) (k : TypedProperty) :
  NoDup (own o).*1 -> NoDup (own (mergeStep o k)).*1.
Proof.
  intros Hnd. unfold mergeStep, jsSet.
  destruct (String.eqb (label k) "__proto__"); simpl; [exact Hnd|].
  by apply ownStore_NoDup.
Qed.

Lemma merge_NoDup (keyList : list TypedProperty) (o : JsObject) :
  NoDup (own o).*1 -> NoDup (own (fold_left mergeStep keyList o)).*1.
Proof.
  revert o. induction keyList as [|k keyList IH]; intros o Hnd; simpl.
  - exact Hnd.
  - apply IH. by apply mergeStep_NoDup.
Qed.

(** On plain labels the merged object holds, for every label of the key
    list, the disjunction of the required flags and the range type of the
    first entry. *)
Lemma merge_plain (keyList : list TypedProperty) :
  (forall k, k ∈ keyList -> plainLabel (label k) = true) ->
  let o := fold_left mergeStep keyList emptyObject in
  proto o = None
  ∧ forall l,
      ownLookup l (own o)
      = match firstWithLabel keyList l with
        | Some f => Some {| entryRequired := anyRequired keyList l;
                            entryType := type f |}
        | None => None
        end.
Proof.
  induction keyList as [|k keyList IH] using rev_ind; intros Hplain o.
  - split; reflexivity.
  - subst o. rewrite fold_left_app. simpl.
    destruct IH as [Hproto Hown].
    { intros k' Hk'. apply Hplain. apply elem_of_app. by left. }
    set (o := fold_left mergeStep keyList emptyObject) in *.
    assert (Hk : plainLabel (label k) = true).
    { apply Hplain. apply elem_of_app. right. by left. }
    destruct (plainLabel_inherits_nothing _ Hk) as [Hp _].
    unfold mergeStep, jsSet, mergedEntry. rewrite Hp. simpl.
    split; [exact Hproto|]. intros l.
    rewrite ownLookup_store, firstWithLabel_snoc, anyRequired_snoc.
    rewrite (jsGet_plain o (label k) Hproto Hk).
    destruct (String.eqb_spec (label k) l) as [<-|Hne].
    + rewrite Hown.
      destruct (firstWithLabel keyList (label k)) as [f|] eqn:Hf; simpl.
      * destruct (anyRequired keyList (label k)), (required k); reflexivity.
      * by rewrite (anyRequired_unlabelled _ _ Hf).
    + rewrite Hown. simpl. rewrite orb_false_r.
      destruct (firstWithLabel keyList l); reflexivity.
Qed.

Lemma NoDup_labels_filter (f : TypedProperty -> bool) (l : list TypedProperty) :
  NoDup (map label l) -> NoDup (map label (List.filter f l)).
Proof.
  induction l as [|k l IH]; simpl; intros Hnd; [exact Hnd|].
  apply NoDup_cons in Hnd as [Hnin Hnd].
  destruct (f k); simpl; [|auto].
  apply NoDup_cons. split; [|auto].
  intros Hin. apply Hnin.
  apply list_elem_of_fmap in Hin as (c & Hc & Hin).
  apply elem_of_List_filter in Hin as [_ Hin].
  apply list_elem_of_fmap. eauto.
Qed.

Lemma propertyOf_labels (o : JsObject) (keys : list string) :
  map label (map (propertyOf o) keys) = keys.
Proof.
  induction keys as [|k keys IH]; simpl; [reflexivity | by rewrite IH].
Qed.

(** A label that every object inherits is not plain: the slot read back is
    the inherited member, so the declared range type is dropped. *)
Example inherited_label_drops_range_type :
  forOf mergeKey
    [ {| label := "constructor"; required := false; type := Some "string" |} ]
    emptyObject
  = Normal {| own := [ ("constructor",
                        {| entryRequired := false; entryType := None |}) ];
              proto := None |}.
Proof. reflexivity. Qed.

(** C1, as the code has it: when the enclosing object's type is a
    non-empty array of type ids whose property labels are plain, the
    candidates are the labels of the typed properties of all those types
    that are not yet keys of the object, one entry per label; the entry is
    required when some entry with that label is, and its range type is the
    one of the first entry with that label. *)
Theorem array_type_candidates
    (dtParser : DigitalTwinMetaModelParser)
    (json : DigitalTwinMetaModelJsonParser) (document : TextDocument)
    (position : Position) (jsonInfo : JsonInfo) (types : list string) :
  getJsonInfoAtPosition json document position = Some jsonInfo ->
  isValue jsonInfo = false ->
  infoType jsonInfo = TypeNames types ->
  types ≠ [] ->
  let keyList :=
    concatTypedProperties dtParser (contextAt json document position) types in
  (forall k, k ∈ keyList -> plainLabel (label k) = true) ->
  exists keys,
    provideCompletionItems dtParser json document position
    = Normal (Some (KeyItems keys))
    ∧ NoDup (map label keys)
    ∧ forall c,
        c ∈ keys ↔
        (label c ∉ properties jsonInfo)
        ∧ exists first,
            firstWithLabel keyList (label c) = Some first
            ∧ required c = anyRequired keyList (label c)
            ∧ type c = type first.
Proof.
  intros Hinfo Hkey Htype Hne keyList Hplain.
  eexists. split; [by apply provideCompletionItems_key|].
  set (dtContext := contextAt json document position) in *.
  destruct (merge_plain keyList Hplain) as [Hproto Hown].
  change (fold_left mergeStep keyList emptyObject)
    with (mergedObject dtParser dtContext types) in Hproto, Hown.
  set (o := mergedObject dtParser dtContext types) in *.
  assert (Hcand : keyCandidates dtParser dtContext jsonInfo
                  = List.filter (fun k => absent jsonInfo (label k))
                      (map (propertyOf o) (objectKeys o))).
  { unfold keyCandidates, keyListOf, inferType. rewrite Htype. simpl.
    destruct types as [|t types']; [contradiction|]. simpl.
    by rewrite app_nil_r. }
  rewrite Hcand. split.
  - apply NoDup_labels_filter. rewrite propertyOf_labels.
    rewrite objectKeys_perm. apply merge_NoDup. simpl. apply NoDup_nil_2.
  - intros c. rewrite elem_of_List_filter, absent_true, list_elem_of_fmap.
    split.
    + intros [Habs (k & -> & Hk)]. split; [exact Habs|]. simpl.
      apply objectKeys_own, ownLookup_is_Some in Hk as [e He].
      pose proof (Hown k) as Hk. rewrite He in Hk.
      destruct (firstWithLabel keyList k) as [f|]; [|discriminate].
      injection Hk as ->. exists f. unfold propertyOf.
      rewrite (jsGet_own _ _ _ He). simpl.
      split; [reflexivity|]. split; [|reflexivity].
      destruct (anyRequired keyList k); reflexivity.
    + intros [Habs (f & Hf & Hreq & Hty)]. split; [exact Habs|].
      exists (label c). pose proof (Hown (label c)) as Hk. rewrite Hf in Hk.
      split.
      * unfold propertyOf. rewrite (jsGet_own _ _ _ Hk). simpl.
        destruct c as [lc rc tc]; simpl in *. subst rc tc.
        f_equal. destruct (anyRequired keyList lc); reflexivity.
      * apply objectKeys_own.
        destruct (decide (label c ∈ (own o).*1)) as [Hin|Hnin]; [exact Hin|].
        apply ownLookup_None in Hnin. congruence.
Qed.

Lemma array_type_candidates_witness :
  let json :=
    Sample.at_ None
      (Some (Sample.keyPosition (TypeNames ["Telemetry"; "Property"])
               ["@type"; "name"])) in
  let keyList :=
    concatTypedProperties Sample.dtParser
      (contextAt json Sample.thermostat Sample.cursor)
      ["Telemetry"; "Property"] in
  exists keys,
    provideCompletionItems Sample.dtParser json Sample.thermostat
      Sample.cursor
    = Normal (Some (KeyItems keys))
    ∧ NoDup (map label keys)
    ∧ forall c,
        c ∈ keys ↔
        (label c ∉ ["@type"; "name"])
        ∧ exists first,
            firstWithLabel keyList (label c) = Some first
            ∧ required c = anyRequired keyList (label c)
            ∧ type c = type first.
Proof.
  apply (array_type_candidates Sample.dtParser
           (Sample.at_ None
              (Some (Sample.keyPosition (TypeNames ["Telemetry"; "Property"])
                       ["@type"; "name"])))
           Sample.thermostat Sample.cursor
           (Sample.keyPosition (TypeNames ["Telemetry"; "Property"])
              ["@type"; "name"])
           ["Telemetry"; "Property"]);
    [reflexivity | reflexivity | reflexivity | discriminate |].
  intros k Hk. vm_compute in Hk.
  repeat (apply elem_of_cons in Hk as [->|Hk]; [reflexivity|]).
  by apply elem_of_nil in Hk.
Defined.

(** C1 as stated fails on the range type: [schema] is declared without a
    range type by the first type and with the range type [Schema] by the
    second; the merged candidate is required but has no range type, where
    "first non-null wins" asks for [Schema]. *)
Lemma merged_range_type_is_not_first_non_null :
  let keyList :=
    concatTypedProperties Sample.dtParser dtInterface
      ["Telemetry"; "Property"] in
  provideCompletionItems Sample.dtParser
    (Sample.at_ None
       (Some (Sample.keyPosition (TypeNames ["Telemetry"; "Property"])
                ["@type"])))
    Sample.thermostat Sample.cursor
  = Normal (Some (KeyItems
       [ {| label := "name"; required := true; type := Some "string" |};
         {| label := "schema"; required := true; type := None |};
         {| label := "writable"; required := false; type := Some "boolean" |} ]))
  ∧ spec_firstNonNullType keyList "schema" = Some "Schema".
Proof. split; reflexivity. Qed.

(** ** The shared revalidation timer *)

Section LifecycleProperties.

Variable dtDiagnostic : DigitalTwinDiagnostic.

Lemma tracked_size (s : Extension) : tracked s -> (size (timers s) <= 1)%nat.
Proof.
  intros Htr. destruct (waitingForUpdatingDiagnostic s) as [id|] eqn:Hh.
  - destruct (timers s !! id) as [t|] eqn:Ht.
    + assert (timers s = {[ id := t ]}) as ->; [|by rewrite map_size_singleton].
      apply map_eq. intros j. destruct (decide (j = id)) as [->|Hne].
      * by rewrite lookup_singleton_eq.
      * rewrite lookup_singleton_ne by done.
        destruct (timers s !! j) eqn:Hj; [|reflexivity].
        specialize (Htr j ltac:(eauto)). congruence.
    + assert (timers s = ∅) as ->; [|by rewrite map_size_empty; lia].
      apply map_eq. intros j. rewrite lookup_empty.
      destruct (timers s !! j) eqn:Hj; [|reflexivity].
      specialize (Htr j ltac:(eauto)). congruence.
  - assert (timers s = ∅) as ->; [|by rewrite map_size_empty; lia].
    apply map_eq. intros j. rewrite lookup_empty.
    destruct (timers s !! j) eqn:Hj; [|reflexivity].
    specialize (Htr j ltac:(eauto)). congruence.
Qed.

Lemma tracked_cleared (s : Extension) :
  tracked s ->
  timers (match waitingForUpdatingDiagnostic s with
          | Some id => clearTimeout id s
          | None => s
          end) = ∅.
Proof.
  intros Htr. apply map_eq. intros j. rewrite lookup_empty.
  destruct (waitingForUpdatingDiagnostic s) as [id|] eqn:Hh; simpl.
  - destruct (decide (j = id)) as [->|Hne].
    + apply lookup_delete_eq.
    + rewrite lookup_delete_ne by done.
      destruct (timers s !! j) eqn:Hj; [|reflexivity].
      specialize (Htr j ltac:(eauto)). congruence.
  - destruct (timers s !! j) eqn:Hj; [|reflexivity].
    specialize (Htr j ltac:(eauto)). congruence.
Qed.

Lemma observe_tracked (document : TextDocument) (s : Extension) :
  tracked s -> tracked (observe document s).
Proof. intros Htr. exact Htr. Qed.

Lemma change_timers (document : TextDocument) (s : Extension) :
  tracked s ->
  isMetaModelPath (fsPath document) = true ->
  let s' := step dtDiagnostic s (DidChangeTextDocument document) in
  timers s'
  = {[ nextTimer s := {| timerKind := ChangeTimeout;
                         timerDocument := fsPath document |} ]}
  ∧ waitingForUpdatingDiagnostic s' = Some (nextTimer s).
Proof.
  intros Htr Hmeta. simpl. unfold onDidChangeTextDocument. rewrite Hmeta.
  simpl. pose proof (tracked_cleared (observe document s) Htr) as Hclr.
  simpl in Hclr.
  destruct (waitingForUpdatingDiagnostic s) as [id|]; simpl in *;
    rewrite Hclr; split; reflexivity.
Qed.

Lemma step_tracked (s : Extension) (e : Event) :
  (opensMetaModel e = true -> timers s = ∅) ->
  tracked s -> tracked (step dtDiagnostic s e).
Proof.
  intros Hopen Htr.
  destruct e as [document|document|editor|document|id];
    [simpl | | simpl | simpl | simpl].
  - simpl in Hopen. unfold onDidOpenTextDocument.
    destruct (isMetaModelPath (fsPath document)); [|exact Htr].
    intros j Hj. simpl in *. rewrite (Hopen eq_refl) in Hj.
    destruct (decide (j = nextTimer s)) as [->|Hne]; [reflexivity|].
    rewrite lookup_insert_ne, lookup_empty in Hj by done. by destruct Hj.
  - destruct (isMetaModelPath (fsPath document)) eqn:Hmeta.
    + destruct (change_timers document s Htr Hmeta) as [Ht Hh].
      intros j Hj. rewrite Hh. rewrite Ht in Hj.
      destruct (decide (j = nextTimer s)) as [->|Hne]; [reflexivity|].
      rewrite lookup_singleton_ne in Hj by done. by destruct Hj.
    + simpl. unfold onDidChangeTextDocument. rewrite Hmeta. exact Htr.
  - destruct editor as [document|]; simpl; [|exact Htr].
    destruct (isMetaModelPath (fsPath document)); exact Htr.
  - unfold onDidCloseTextDocument.
    destruct (isMetaModelPath (fsPath document)); exact Htr.
  - unfold onTimeout. destruct (timers s !! id) as [t|] eqn:Ht; [|exact Htr].
    assert (Hid : waitingForUpdatingDiagnostic s = Some id) by (apply Htr; eauto).
    assert (Hgone : forall j, is_Some (base.delete id (timers s) !! j) -> False).
    { intros j Hj. destruct (decide (j = id)) as [->|Hne].
      - rewrite lookup_delete_eq in Hj. by destruct Hj.
      - rewrite lookup_delete_ne in Hj by done.
        specialize (Htr j Hj). congruence. }
    destruct (timerKind t); intros j Hj; simpl in Hj; by apply Hgone in Hj.
Qed.

Lemma run_tracked (events : list Event) (s : Extension) :
  opensWhenIdle dtDiagnostic s events ->
  tracked s -> tracked (run dtDiagnostic s events).
Proof.
  revert s. induction events as [|e events IH]; intros s Hev Htr; simpl.
  - exact Htr.
  - destruct Hev as [He Hev]. apply IH; [exact Hev|].
    by apply step_tracked.
Qed.

Lemma pendingFor_size (s : Extension) (path : string) :
  (size (pendingFor s path) <= size (timers s))%nat.
Proof. apply map_subseteq_size, map_filter_subseteq. Qed.

Lemma activate_tracked (activeEditor : option TextDocument) :
  tracked (activate dtDiagnostic activeEditor).
Proof.
  intros j Hj. unfold activate in Hj.
  destruct activeEditor as [document|]; simpl in Hj.
  - destruct (isMetaModelPath (fsPath document)); simpl in Hj;
      rewrite lookup_empty in Hj; by destruct Hj.
  - rewrite lookup_empty in Hj. by destruct Hj.
Qed.

(** ** Closing a document *)

Lemma step_keeps_cleared (path : string) (s : Extension) (e : Event) :
  diagnostics s !! path = None ->
  revalidated s e ≠ Some path ->
  diagnostics (step dtDiagnostic s e) !! path = None.
Proof.
  intros Hnone Hq. destruct e as [document|document|editor|document|id]; simpl.
  - unfold onDidOpenTextDocument.
    destruct (isMetaModelPath (fsPath document)); exact Hnone.
  - unfold onDidChangeTextDocument.
    destruct (isMetaModelPath (fsPath document)); simpl; [|exact Hnone].
    destruct (waitingForUpdatingDiagnostic s); exact Hnone.
  - destruct editor as [document|]; simpl in *; [|exact Hnone].
    destruct (isMetaModelPath (fsPath document)); simpl; [|exact Hnone].
    unfold Diagnostics.update. rewrite lookup_insert_ne; [exact Hnone|].
    congruence.
  - unfold onDidCloseTextDocument.
    destruct (isMetaModelPath (fsPath document)); simpl; [|exact Hnone].
    unfold Diagnostics.delete.
    destruct (decide (fsPath document = path)) as [->|Hne].
    + apply lookup_delete_eq.
    + by rewrite lookup_delete_ne.
  - unfold onTimeout. simpl in Hq.
    destruct (timers s !! id) as [t|]; [|exact Hnone].
    simpl in Hq.
    assert (Hne : timerDocument t ≠ path) by congruence.
    destruct (timerKind t); simpl; unfold Diagnostics.update; simpl;
      by rewrite lookup_insert_ne.
Qed.

Lemma run_keeps_cleared (path : string) (events : list Event) (s : Extension) :
  diagnostics s !! path = None ->
  quietFor dtDiagnostic path s events ->
  diagnostics (run dtDiagnostic s events) !! path = None.
Proof.
  revert s. induction events as [|e events IH]; intros s Hnone Hq; simpl.
  - exact Hnone.
  - destruct Hq as [He Hq]. apply IH; [|exact Hq].
    by apply step_keeps_cleared.
Qed.

End LifecycleProperties.

(** C2, as the code has it: there is one timer handle for all documents.
    As long as metamodel documents are opened only while no timer is
    pending, at most one revalidation timer is pending in total (hence at
    most one for each document) and it is the one the handle refers to; an
    edit of a metamodel document cancels it, whichever document it was
    scheduled for, and leaves exactly one pending timer, for the edited
    document. *)
Theorem shared_timer_debounce
    (dtDiagnostic : DigitalTwinDiagnostic)
    (activeEditor : option TextDocument) (events : list Event) :
  opensWhenIdle dtDiagnostic (activate dtDiagnostic activeEditor) events ->
  let s := run dtDiagnostic (activate dtDiagnostic activeEditor) events in
  (size (timers s) <= 1)%nat
  ∧ (forall path, (size (pendingFor s path) <= 1)%nat)
  ∧ tracked s
  ∧ forall document,
      isMetaModelPath (fsPath document) = true ->
      let s' := step dtDiagnostic s (DidChangeTextDocument document) in
      timers s'
      = {[ nextTimer s := {| timerKind := ChangeTimeout;
                             timerDocument := fsPath document |} ]}
      ∧ waitingForUpdatingDiagnostic s' = Some (nextTimer s).
Proof.
  intros Hev s.
  assert (Htr : tracked s).
  { apply run_tracked; [exact Hev | apply activate_tracked]. }
  pose proof (tracked_size s Htr) as Hsize.
  split; [exact Hsize|]. split.
  { intros path. pose proof (pendingFor_size s path). lia. }
  split; [exact Htr|].
  intros document Hmeta. by apply change_timers.
Qed.

Lemma shared_timer_debounce_witness :
  let s :=
    run Sample.dtDiagnostic
      (activate Sample.dtDiagnostic (Some Sample.thermostat))
      [ DidOpenTextDocument Sample.hub;
        TimerFires 0;
        DidChangeTextDocument Sample.thermostat;
        DidChangeTextDocument Sample.hub;
        TimerFires 2;
        DidCloseTextDocument Sample.hub ] in
  (size (timers s) <= 1)%nat
  ∧ (forall path, (size (pendingFor s path) <= 1)%nat)
  ∧ tracked s
  ∧ forall document,
      isMetaModelPath (fsPath document) = true ->
      let s' := step Sample.dtDiagnostic s (DidChangeTextDocument document) in
      timers s'
      = {[ nextTimer s := {| timerKind := ChangeTimeout;
                             timerDocument := fsPath document |} ]}
      ∧ waitingForUpdatingDiagnostic s' = Some (nextTimer s).
Proof.
  apply (shared_timer_debounce Sample.dtDiagnostic (Some Sample.thermostat)
           [ DidOpenTextDocument Sample.hub;
             TimerFires 0;
             DidChangeTextDocument Sample.thermostat;
             DidChangeTextDocument Sample.hub;
             TimerFires 2;
             DidCloseTextDocument Sample.hub ]).
  vm_compute. repeat split; intros; try discriminate; reflexivity.
Defined.

(** C2 as stated fails.  An edit, the opening of another document and a
    second edit leave two pending timers for the edited document; and an
    edit of one document cancels the pending timer of another. *)
Lemma timers_stack_and_cancel_across_documents :
  size (pendingFor
          (run Sample.dtDiagnostic (activate Sample.dtDiagnostic None)
             [ DidChangeTextDocument Sample.thermostat;
               DidOpenTextDocument Sample.hub;
               TimerFires 1;
               DidChangeTextDocument Sample.thermostat ])
          (fsPath Sample.thermostat)) = 2
  ∧ size (pendingFor
            (run Sample.dtDiagnostic (activate Sample.dtDiagnostic None)
               [ DidChangeTextDocument Sample.thermostat ])
            (fsPath Sample.thermostat)) = 1
  ∧ size (pendingFor
            (run Sample.dtDiagnostic (activate Sample.dtDiagnostic None)
               [ DidChangeTextDocument Sample.thermostat;
                 DidChangeTextDocument Sample.hub ])
            (fsPath Sample.thermostat)) = 0.
Proof. split; [|split]; vm_compute; reflexivity. Qed.

(** C3, as the code has it: closing a metamodel document empties its
    diagnostic listing at once, whatever timers are pending, and the
    listing stays empty as long as no revalidation of that document runs
    afterwards. *)
Theorem close_clears_diagnostics
    (dtDiagnostic : DigitalTwinDiagnostic) (s : Extension)
    (document : TextDocument) (events : list Event) :
  isMetaModelPath (fsPath document) = true ->
  let closed := step dtDiagnostic s (DidCloseTextDocument document) in
  quietFor dtDiagnostic (fsPath document) closed events ->
  Diagnostics.listing (diagnostics (run dtDiagnostic closed events))
    (fsPath document) = [].
Proof.
  intros Hmeta closed Hquiet. unfold Diagnostics.listing.
  rewrite (run_keeps_cleared dtDiagnostic (fsPath document) events closed);
    [reflexivity | | exact Hquiet].
  subst closed. simpl. unfold onDidCloseTextDocument. rewrite Hmeta. simpl.
  apply lookup_delete_eq.
Qed.

Lemma close_clears_diagnostics_witness :
  Diagnostics.listing
    (diagnostics
       (run Sample.dtDiagnostic
          (step Sample.dtDiagnostic
             (run Sample.dtDiagnostic
                (activate Sample.dtDiagnostic (Some Sample.thermostat))
                [ DidChangeTextDocument Sample.hub ])
             (DidCloseTextDocument Sample.thermostat))
          [ TimerFires 0; DidChangeActiveTextEditor (Some Sample.hub) ]))
    (fsPath Sample.thermostat) = [].
Proof.
  apply (close_clears_diagnostics Sample.dtDiagnostic
           (run Sample.dtDiagnostic
              (activate Sample.dtDiagnostic (Some Sample.thermostat))
              [ DidChangeTextDocument Sample.hub ])
           Sample.thermostat
           [ TimerFires 0; DidChangeActiveTextEditor (Some Sample.hub) ]);
    [reflexivity|].
  vm_compute. repeat split; discriminate.
Defined.

(** C3 as stated fails on "remains empty": a document is opened and
    validated, edited and closed; its listing is empty after the close,
    and the timer of the edit, still pending, fills it again. *)
Lemma pending_timer_restores_diagnostics :
  let closed :=
    run Sample.dtDiagnostic (activate Sample.dtDiagnostic None)
      [ DidOpenTextDocument Sample.thermostat;
        TimerFires 0;
        DidChangeTextDocument Sample.thermostat;
        DidCloseTextDocument Sample.thermostat ] in
  Diagnostics.listing (diagnostics closed) (fsPath Sample.thermostat) = []
  ∧ size (pendingFor closed (fsPath Sample.thermostat)) = 1
  ∧ Diagnostics.listing
      (diagnostics (step Sample.dtDiagnostic closed (TimerFires 1)))
      (fsPath Sample.thermostat)
    = [ {| startOffset := 0; endOffset := 2;
           message := "Missing required properties: @id, @type, @context." |} ].
Proof. split; [|split]; vm_compute; reflexivity. Qed.

(** * Further properties *)

(** ** File names *)

Lemma length_append (p s : string) :
  String.length (p +:+ s) = (String.length p + String.length s)%nat.
Proof. induction p as [|c p IH]; simpl; [reflexivity | by rewrite IH]. Qed.

Lemma substring_all (s : string) : substring 0 (String.length s) s = s.
Proof. induction s as [|c s IH]; simpl; [reflexivity | by rewrite IH]. Qed.

Lemma substring_append (p s : string) (k m : nat) :
  substring (String.length p + k) m (p +:+ s) = substring k m s.
Proof. induction p as [|c p IH]; simpl; [reflexivity | exact IH]. Qed.

Lemma substring_split (s : string) (k : nat) :
  (k <= String.length s)%nat ->
  s = substring 0 k s +:+ substring k (String.length s - k) s.
Proof.
  revert k. induction s as [|c s IH]; intros k Hk; simpl in *.
  - destruct k; [reflexivity | lia].
  - destruct k as [|k]; simpl.
    + by rewrite substring_all.
    + change (String c s
              = String c (substring 0 k s
                          +:+ substring k (String.length s - k) s)).
      f_equal. apply IH. lia.
Qed.

Lemma endsWith_append (p suffix : string) : endsWith (p +:+ suffix) suffix = true.
Proof.
  unfold endsWith. rewrite length_append.
  replace (String.length p + String.length suffix - String.length suffix)%nat
    with (String.length p + 0)%nat by lia.
  rewrite substring_append, substring_all, String.eqb_refl.
  rewrite andb_true_r. apply Nat.leb_le. lia.
Qed.

Lemma endsWith_stem (s suffix : string) :
  endsWith s suffix = true -> exists stem, s = stem +:+ suffix.
Proof.
  unfold endsWith. intros H. apply andb_true_iff in H as [Hle Heq].
  apply Nat.leb_le in Hle. apply String.eqb_eq in Heq.
  exists (substring 0 (String.length s - String.length suffix) s).
  pose proof (substring_split s (String.length s - String.length suffix)
                ltac:(lia)) as Hsplit.
  replace (String.length s - (String.length s - String.length suffix))%nat
    with (String.length suffix) in Hsplit by lia.
  by rewrite Heq in Hsplit.
Qed.

(** X1: the file-name test of the handlers accepts exactly the paths made
    of some stem followed by [.interface.json] or [.capabilitymodel.json];
    the suffix has to be the end of the path. *)
Theorem metamodel_path_shape (path : string) :
  isMetaModelPath path = true ↔
  exists stem,
    path = stem +:+ ".interface.json"
    ∨ path = stem +:+ ".capabilitymodel.json".
Proof.
  unfold isMetaModelPath. rewrite orb_true_iff. split.
  - intros [H|H]; apply endsWith_stem in H as [stem ->]; eauto.
  - intros [stem [-> | ->]]; [left | right]; apply endsWith_append.
Qed.

Lemma suffixes_exclusive (path : string) :
  endsWith path ".interface.json" = true ->
  endsWith path ".capabilitymodel.json" = true -> False.
Proof.
  intros Hi Hc. apply endsWith_stem in Hc as [stem ->].
  unfold endsWith in Hi. apply andb_true_iff in Hi as [_ Heq].
  rewrite length_append in Heq. simpl in Heq.
  replace (String.length stem + 21 - 15)%nat
    with (String.length stem + 6)%nat in Heq by lia.
  rewrite substring_append in Heq. vm_compute in Heq. discriminate.
Qed.

(** X2: a metamodel path has exactly one of the two suffixes, and the
    document type follows it: [Interface] for [.interface.json],
    [CapabilityModel] for [.capabilitymodel.json]. *)
Theorem document_type_of_metamodel_path (document : TextDocument) :
  isMetaModelPath (fsPath document) = true ->
  (getDocumentType document = "Interface"
   ∧ endsWith (fsPath document) ".interface.json" = true
   ∧ endsWith (fsPath document) ".capabilitymodel.json" = false)
  ∨ (getDocumentType document = "CapabilityModel"
     ∧ endsWith (fsPath document) ".interface.json" = false
     ∧ endsWith (fsPath document) ".capabilitymodel.json" = true).
Proof.
  unfold isMetaModelPath, getDocumentType. intros H.
  destruct (endsWith (fsPath document) ".interface.json") eqn:Hi.
  - left. split; [reflexivity|]. split; [reflexivity|].
    destruct (endsWith (fsPath document) ".capabilitymodel.json") eqn:Hc;
      [|reflexivity].
    destruct (suffixes_exclusive _ Hi Hc).
  - right. simpl in H. auto.
Qed.

Lemma document_type_of_metamodel_path_witness :
  (getDocumentType Sample.hub = "Interface"
   ∧ endsWith (fsPath Sample.hub) ".interface.json" = true
   ∧ endsWith (fsPath Sample.hub) ".capabilitymodel.json" = false)
  ∨ (getDocumentType Sample.hub = "CapabilityModel"
     ∧ endsWith (fsPath Sample.hub) ".interface.json" = false
     ∧ endsWith (fsPath Sample.hub) ".capabilitymodel.json" = true).
Proof.
  apply (document_type_of_metamodel_path Sample.hub). reflexivity.
Defined.

(** ** Hover *)

(** X3: the hover provider never shows an empty text: its answer is either
    nothing or a non-empty string, whatever the ontology records. *)
Theorem hover_never_empty
    (dtParser : DigitalTwinMetaModelParser)
    (json : DigitalTwinMetaModelJsonParser) (document : TextDocument)
    (position : Position) :
  provideHover dtParser json document position ≠ Some "".
Proof.
  unfold provideHover.
  match goal with
  | |- (if truthy ?h then _ else _) ≠ _ => destruct h as [text|] eqn:Hh
  end; simpl; [|discriminate].
  destruct (String.eqb_spec text ""); simpl; [discriminate | congruence].
Qed.

(** ** When the completion provider answers [null] *)

(** X4: the completion provider answers [null] in exactly two situations:
    there is no JSON information at the position, or the cursor is in the
    value of [@type] under a parent key that does not resolve to an id.
    Everywhere else it answers with a list, possibly an empty one. *)
Theorem completion_null_cases
    (dtParser : DigitalTwinMetaModelParser)
    (json : DigitalTwinMetaModelJsonParser) (document : TextDocument)
    (position : Position) :
  provideCompletionItems dtParser json document position = Normal None ↔
  getJsonInfoAtPosition json document position = None
  ∨ exists jsonInfo,
      getJsonInfoAtPosition json document position = Some jsonInfo
      ∧ isValue jsonInfo = true
      ∧ key jsonInfo = "@type"
      ∧ truthy (lastKey jsonInfo) = true
      ∧ truthy (getIdFromShortName dtParser
                  (contextAt json document position) (lastKey jsonInfo))
        = false.
Proof.
  destruct (getJsonInfoAtPosition json document position) as [jsonInfo|] eqn:Hinfo.
  - destruct (isValue jsonInfo) eqn:Hval.
    + rewrite (provideCompletionItems_value _ _ _ _ _ Hinfo Hval).
      unfold completeValue.
      destruct (String.eqb_spec (key jsonInfo) "@context") as [Hctx|Hctx].
      { split; [discriminate|]. intros [|(? & [= <-] & _ & Hk & _)];
          [discriminate | congruence]. }
      destruct (String.eqb_spec (key jsonInfo) "@type") as [Hty|Hty].
      * destruct (truthy (lastKey jsonInfo)) eqn:Hlast.
        -- destruct (truthy (getIdFromShortName dtParser
                               (contextAt json document position)
                               (lastKey jsonInfo))) eqn:Hid; simpl.
           ++ split; [discriminate|].
              intros [|(? & [= <-] & _ & _ & _ & Hid')];
                [discriminate | congruence].
           ++ split; [|reflexivity]. intros _. right. eauto 10.
        -- split; [discriminate|].
           intros [|(? & [= <-] & _ & _ & Hlast' & _)];
             [discriminate | congruence].
      * split; [discriminate|].
        intros [|(? & [= <-] & _ & Hk & _)]; [discriminate | congruence].
    + rewrite (provideCompletionItems_key _ _ _ _ _ Hinfo Hval).
      split; [discriminate|].
      intros [|(? & [= <-] & Hval' & _)]; [discriminate | congruence].
  - unfold provideCompletionItems. rewrite Hinfo. simpl.
    split; [by left | reflexivity].
Qed.

(** ** Key positions with a single type *)

Lemma inferType_kept (dtParser : DigitalTwinMetaModelParser)
    (dtContext : DigitalTwinMetaModelContext) (jsonInfo : JsonInfo) :
  typeTruthy (infoType jsonInfo) = true ->
  inferType dtParser dtContext jsonInfo = infoType jsonInfo.
Proof. intros H. unfold inferType. by rewrite H. Qed.

Lemma isRootType_named (t : string) :
  t ≠ "Interface" -> t ≠ "CapabilityModel" -> isRootType (TypeName t) = false.
Proof.
  intros H1 H2. simpl.
  destruct (String.eqb_spec t "Interface"); [contradiction|].
  destruct (String.eqb_spec t "CapabilityModel"); [contradiction|].
  reflexivity.
Qed.

Lemma keyCandidates_named (dtParser : DigitalTwinMetaModelParser)
    (dtContext : DigitalTwinMetaModelContext) (jsonInfo : JsonInfo) (t : string) :
  inferType dtParser dtContext jsonInfo = TypeName t ->
  t ≠ "" -> t ≠ "Interface" -> t ≠ "CapabilityModel" ->
  keyCandidates dtParser dtContext jsonInfo
  = List.filter (fun k => absent jsonInfo (label k))
      (getTypedPropertiesFromType dtParser dtContext t).
Proof.
  intros Ht Hne Hi Hc. unfold keyCandidates, keyListOf. rewrite Ht.
  rewrite (isRootType_named t Hi Hc). simpl.
  destruct (String.eqb_spec t ""); [contradiction|]. simpl.
  by rewrite app_nil_r.
Qed.

(** X5: when the enclosing object names a single type that is not a root
    kind, the candidates are exactly the typed properties of that type
    that are not yet keys of the object, in the order the ontology gives
    them; nothing is synthesized and nothing is merged. *)
Theorem named_type_candidates
    (dtParser : DigitalTwinMetaModelParser)
    (json : DigitalTwinMetaModelJsonParser) (document : TextDocument)
    (position : Position) (jsonInfo : JsonInfo) (t : string) :
  getJsonInfoAtPosition json document position = Some jsonInfo ->
  isValue jsonInfo = false ->
  infoType jsonInfo = TypeName t ->
  t ≠ "" -> t ≠ "Interface" -> t ≠ "CapabilityModel" ->
  provideCompletionItems dtParser json document position
  = Normal (Some (KeyItems
      (List.filter (fun k => absent jsonInfo (label k))
         (getTypedPropertiesFromType dtParser
            (contextAt json document position) t)))).
Proof.
  intros Hinfo Hkey Ht Hne Hi Hc.
  rewrite (provideCompletionItems_key _ _ _ _ _ Hinfo Hkey).
  rewrite (keyCandidates_named _ _ _ t); [reflexivity | | done..].
  rewrite inferType_kept; [exact Ht|]. rewrite Ht. simpl.
  by destruct (String.eqb_spec t "").
Qed.

Lemma named_type_candidates_witness :
  provideCompletionItems Sample.dtParser
    (Sample.at_ None
       (Some (Sample.keyPosition (TypeName "Property") ["@type"; "schema"])))
    Sample.hub Sample.cursor
  = Normal (Some (KeyItems
      (List.filter
         (fun k =>
            absent (Sample.keyPosition (TypeName "Property") ["@type"; "schema"])
              (label k))
         (getTypedPropertiesFromType Sample.dtParser
            (contextAt
               (Sample.at_ None
                  (Some (Sample.keyPosition (TypeName "Property")
                           ["@type"; "schema"])))
               Sample.hub Sample.cursor)
            "Property")))).
Proof.
  apply (named_type_candidates Sample.dtParser
           (Sample.at_ None
              (Some (Sample.keyPosition (TypeName "Property")
                       ["@type"; "schema"])))
           Sample.hub Sample.cursor
           (Sample.keyPosition (TypeName "Property") ["@type"; "schema"])
           "Property");
    [reflexivity | reflexivity | reflexivity | discriminate..].
Defined.

(** X6: an object whose own type is missing or the empty string (not an
    array, also not the empty one) takes the type of its parent key when
    that key resolves to a non-empty id with exactly one declared type and
    that type is non-empty and not a root kind; the candidates are then the
    typed properties of that type that are not yet keys of the object. *)
Theorem inferred_type_candidates
    (dtParser : DigitalTwinMetaModelParser)
    (json : DigitalTwinMetaModelJsonParser) (document : TextDocument)
    (position : Position) (jsonInfo : JsonInfo) (id v : string) :
  getJsonInfoAtPosition json document position = Some jsonInfo ->
  isValue jsonInfo = false ->
  typeTruthy (infoType jsonInfo) = false ->
  let dtContext := contextAt json document position in
  getIdFromShortName dtParser dtContext (lastKey jsonInfo) = Some id ->
  id ≠ "" ->
  getTypesFromId dtParser dtContext id = [v] ->
  v ≠ "" -> v ≠ "Interface" -> v ≠ "CapabilityModel" ->
  provideCompletionItems dtParser json document position
  = Normal (Some (KeyItems
      (List.filter (fun k => absent jsonInfo (label k))
         (getTypedPropertiesFromType dtParser dtContext v)))).
Proof.
  intros Hinfo Hkey Hty dtContext Hid Hne Htypes Hv Hi Hc.
  rewrite (provideCompletionItems_key _ _ _ _ _ Hinfo Hkey).
  fold dtContext. rewrite (keyCandidates_named _ _ _ v); [reflexivity | | done..].
  unfold inferType. rewrite Hty, Hid. simpl.
  destruct (String.eqb_spec id ""); [contradiction|]. simpl. rewrite Htypes.
  destruct (String.eqb_spec v "Interface"); [contradiction|].
  destruct (String.eqb_spec v "CapabilityModel"); [contradiction|].
  reflexivity.
Qed.

Lemma inferred_type_candidates_witness :
  let jsonInfo :=
    {| isValue := false; key := ""; lastKey := Some "schema";
       infoType := TypeUndefined; properties := ["name"] |} in
  let dtParser :=
    {| getIdFromShortName := fun _ _ => Some "http://azureiot.com/v0/schema";
       getTypesFromId := fun _ _ => ["Telemetry"];
       getTypedPropertiesFromType :=
         getTypedPropertiesFromType Sample.dtParser;
       getStringValuesFromShortName := fun _ _ => [];
       getCommentFromId := fun _ => None |} in
  provideCompletionItems dtParser (Sample.at_ None (Some jsonInfo))
    Sample.thermostat Sample.cursor
  = Normal (Some (KeyItems
      (List.filter (fun k => absent jsonInfo (label k))
         (getTypedPropertiesFromType dtParser
            (contextAt (Sample.at_ None (Some jsonInfo)) Sample.thermostat
               Sample.cursor)
            "Telemetry")))).
Proof.
  intros jsonInfo dtParser.
  apply (inferred_type_candidates dtParser (Sample.at_ None (Some jsonInfo))
           Sample.thermostat Sample.cursor jsonInfo
           "http://azureiot.com/v0/schema" "Telemetry");
    [reflexivity | reflexivity | reflexivity | reflexivity | discriminate
    | reflexivity | discriminate..].
Defined.

(** X7: no type is inferred from a parent key that does not resolve, that
    has no or several declared types, or whose one declared type is a root
    kind; an object without a usable type of its own is then offered
    [@type] alone, if it does not have that key already. *)
Theorem no_inference_candidates
    (dtParser : DigitalTwinMetaModelParser)
    (json : DigitalTwinMetaModelJsonParser) (document : TextDocument)
    (position : Position) (jsonInfo : JsonInfo) :
  getJsonInfoAtPosition json document position = Some jsonInfo ->
  isValue jsonInfo = false ->
  typeTruthy (infoType jsonInfo) = false ->
  let dtContext := contextAt json document position in
  let id := getIdFromShortName dtParser dtContext (lastKey jsonInfo) in
  let types := getTypesFromId dtParser dtContext (default "" id) in
  truthy id = false
  ∨ length types ≠ 1
  ∨ types = ["Interface"]
  ∨ types = ["CapabilityModel"] ->
  provideCompletionItems dtParser json document position
  = Normal (Some (KeyItems
                    (if absent jsonInfo "@type" then [typeKey] else []))).
Proof.
  intros Hinfo Hkey Hty dtContext id types Hcase.
  rewrite (provideCompletionItems_key _ _ _ _ _ Hinfo Hkey).
  fold dtContext.
  assert (Hkept : inferType dtParser dtContext jsonInfo = infoType jsonInfo).
  { unfold inferType. rewrite Hty. simpl. fold id.
    destruct (truthy id) eqn:Hid; [|reflexivity]. fold types.
    destruct Hcase as [H|[H|[H|H]]]; [discriminate | | by rewrite H..].
    destruct types as [|v [|v' rest]]; [reflexivity | | reflexivity].
    by destruct H. }
  assert (Hres : typeResolved (infoType jsonInfo) = false).
  { destruct (infoType jsonInfo) as [|s|l]; simpl in *;
      [reflexivity | exact Hty | discriminate]. }
  unfold keyCandidates, keyListOf. rewrite Hkept, Hres.
  destruct (isRootType (infoType jsonInfo)) eqn:Hroot.
  - apply isRootType_resolved in Hroot. congruence.
  - simpl. by rewrite app_nil_r.
Qed.

Lemma no_inference_candidates_witness :
  let jsonInfo :=
    {| isValue := false; key := ""; lastKey := Some "contents";
       infoType := TypeUndefined; properties := [] |} in
  provideCompletionItems Sample.dtParser (Sample.at_ None (Some jsonInfo))
    Sample.thermostat Sample.cursor
  = Normal (Some (KeyItems
                    (if absent jsonInfo "@type" then [typeKey] else []))).
Proof.
  intros jsonInfo.
  apply (no_inference_candidates Sample.dtParser
           (Sample.at_ None (Some jsonInfo))
           Sample.thermostat Sample.cursor jsonInfo);
    [reflexivity | reflexivity | reflexivity |].
  right. left. vm_compute. discriminate.
Defined.

(** ** Key positions with an array of types *)

Lemma keyCandidates_array (dtParser : DigitalTwinMetaModelParser)
    (dtContext : DigitalTwinMetaModelContext) (jsonInfo : JsonInfo)
    (types : list string) :
  infoType jsonInfo = TypeNames types ->
  types ≠ [] ->
  keyCandidates dtParser dtContext jsonInfo
  = List.filter (fun k => absent jsonInfo (label k))
      (map (propertyOf (mergedObject dtParser dtContext types))
         (objectKeys (mergedObject dtParser dtContext types))).
Proof.
  intros Htype Hne. unfold keyCandidates, keyListOf, inferType.
  rewrite Htype. simpl. destruct types as [|t types']; [contradiction|].
  simpl. by rewrite app_nil_r.
Qed.

Lemma keyCandidates_array_spec (dtParser : DigitalTwinMetaModelParser)
    (dtContext : DigitalTwinMetaModelContext) (jsonInfo : JsonInfo)
    (types : list string) (c : TypedProperty) :
  infoType jsonInfo = TypeNames types ->
  types ≠ [] ->
  let keyList := concatTypedProperties dtParser dtContext types in
  (forall k, k ∈ keyList -> plainLabel (label k) = true) ->
  c ∈ keyCandidates dtParser dtContext jsonInfo ↔
  (label c ∉ properties jsonInfo)
  ∧ exists first,
      firstWithLabel keyList (label c) = Some first
      ∧ required c = anyRequired keyList (label c)
      ∧ type c = type first.
Proof.
  intros Htype Hne keyList Hplain.
  rewrite (keyCandidates_array _ _ _ _ Htype Hne).
  destruct (merge_plain keyList Hplain) as [_ Hown].
  change (fold_left mergeStep keyList emptyObject)
    with (mergedObject dtParser dtContext types) in Hown.
  set (o := mergedObject dtParser dtContext types) in *.
  rewrite elem_of_List_filter, absent_true, list_elem_of_fmap. split.
  - intros [Habs (k & -> & Hk)]. split; [exact Habs|]. simpl.
    apply objectKeys_own, ownLookup_is_Some in Hk as [e He].
    pose proof (Hown k) as Hk. rewrite He in Hk.
    destruct (firstWithLabel keyList k) as [f|]; [|discriminate].
    injection Hk as ->. exists f. unfold propertyOf.
    rewrite (jsGet_own _ _ _ He). simpl.
    split; [reflexivity|]. split; [|reflexivity].
    destruct (anyRequired keyList k); reflexivity.
  - intros [Habs (f & Hf & Hreq & Hty)]. split; [exact Habs|].
    exists (label c). pose proof (Hown (label c)) as Hk. rewrite Hf in Hk.
    split.
    + unfold propertyOf. rewrite (jsGet_own _ _ _ Hk). simpl.
      destruct c as [lc rc tc]; simpl in *. subst rc tc.
      f_equal. destruct (anyRequired keyList lc); reflexivity.
    + apply objectKeys_own.
      destruct (decide (label c ∈ (own o).*1)) as [Hin|Hnin]; [exact Hin|].
      apply ownLookup_None in Hnin. congruence.
Qed.

Lemma firstWithLabel_is_Some (keyList : list TypedProperty) (l : string) :
  is_Some (firstWithLabel keyList l) ↔ exists k, k ∈ keyList ∧ label k = l.
Proof.
  split.
  - intros [f Hf]. apply firstWithLabel_label in Hf as [Hin Hl]. eauto.
  - intros (k & Hin & <-). by apply firstWithLabel_present.
Qed.

Lemma anyRequired_true (keyList : list TypedProperty) (l : string) :
  anyRequired keyList l = true ↔
  exists k, k ∈ keyList ∧ label k = l ∧ required k = true.
Proof.
  unfold anyRequired. rewrite existsb_exists. split.
  - intros (k & Hin & Hk). apply andb_true_iff in Hk as [Hl Hr].
    apply String.eqb_eq in Hl. exists k. by rewrite list_elem_of_In.
  - intros (k & Hin & Hl & Hr). exists k. rewrite <- list_elem_of_In.
    split; [exact Hin|]. apply andb_true_iff.
    split; [by apply String.eqb_eq | exact Hr].
Qed.

Lemma anyRequired_perm (keyList keyList' : list TypedProperty) (l : string) :
  keyList ≡ₚ keyList' -> anyRequired keyList l = anyRequired keyList' l.
Proof.
  intros Hperm.
  destruct (anyRequired keyList l) eqn:E, (anyRequired keyList' l) eqn:E';
    try reflexivity.
  - apply anyRequired_true in E as (k & Hin & Hk). rewrite Hperm in Hin.
    assert (anyRequired keyList' l = true) by (apply anyRequired_true; eauto).
    congruence.
  - apply anyRequired_true in E' as (k & Hin & Hk). rewrite <- Hperm in Hin.
    assert (anyRequired keyList l = true) by (apply anyRequired_true; eauto).
    congruence.
Qed.

(** X8: for an array of types with plain labels, the order of the type
    ids decides neither which keys are offered nor which of them are
    marked required: two requests that differ only in the order of the
    array offer the same labels with the same required flags. *)
Theorem array_order_keeps_labels_and_required
    (dtParser : DigitalTwinMetaModelParser)
    (json json' : DigitalTwinMetaModelJsonParser) (document : TextDocument)
    (position : Position) (jsonInfo jsonInfo' : JsonInfo)
    (types types' : list string) :
  getJsonInfoAtPosition json document position = Some jsonInfo ->
  getJsonInfoAtPosition json' document position = Some jsonInfo' ->
  contextAt json document position = contextAt json' document position ->
  isValue jsonInfo = false -> isValue jsonInfo' = false ->
  properties jsonInfo = properties jsonInfo' ->
  infoType jsonInfo = TypeNames types ->
  infoType jsonInfo' = TypeNames types' ->
  types ≠ [] ->
  types ≡ₚ types' ->
  (forall k,
      k ∈ concatTypedProperties dtParser (contextAt json document position)
            types ->
      plainLabel (label k) = true) ->
  exists keys keys',
    provideCompletionItems dtParser json document position
    = Normal (Some (KeyItems keys))
    ∧ provideCompletionItems dtParser json' document position
      = Normal (Some (KeyItems keys'))
    ∧ forall l r,
        (exists c, c ∈ keys ∧ label c = l ∧ required c = r)
        ↔ (exists c', c' ∈ keys' ∧ label c' = l ∧ required c' = r).
Proof.
  intros Hinfo Hinfo' Hctx Hkey Hkey' Hprops Htype Htype' Hne Hperm Hplain.
  exists (keyCandidates dtParser (contextAt json document position) jsonInfo),
         (keyCandidates dtParser (contextAt json' document position) jsonInfo').
  split; [by apply provideCompletionItems_key|].
  split; [by apply provideCompletionItems_key|].
  rewrite <- Hctx. set (dtContext := contextAt json document position) in *.
  assert (Hne' : types' ≠ []).
  { intros ->. apply Permutation_nil_r in Hperm. contradiction. }
  assert (Hlists : concatTypedProperties dtParser dtContext types
                   ≡ₚ concatTypedProperties dtParser dtContext types').
  { unfold concatTypedProperties. by apply Permutation_flat_map. }
  assert (Hplain' : forall k,
             k ∈ concatTypedProperties dtParser dtContext types' ->
             plainLabel (label k) = true).
  { intros k Hk. apply Hplain. by rewrite Hlists. }
  assert (Hside : forall (info1 info2 : JsonInfo) (t1 t2 : list string),
             infoType info1 = TypeNames t1 -> infoType info2 = TypeNames t2 ->
             t1 ≠ [] -> t2 ≠ [] ->
             properties info1 = properties info2 ->
             concatTypedProperties dtParser dtContext t1
             ≡ₚ concatTypedProperties dtParser dtContext t2 ->
             (forall k, k ∈ concatTypedProperties dtParser dtContext t1 ->
                        plainLabel (label k) = true) ->
             (forall k, k ∈ concatTypedProperties dtParser dtContext t2 ->
                        plainLabel (label k) = true) ->
             forall c, c ∈ keyCandidates dtParser dtContext info1 ->
             exists c', c' ∈ keyCandidates dtParser dtContext info2
                        ∧ label c' = label c ∧ required c' = required c).
  { intros info1 info2 t1 t2 H1 H2 Hn1 Hn2 Hp Hl Hpl1 Hpl2 c Hc.
    apply (keyCandidates_array_spec _ _ _ t1 c H1 Hn1 Hpl1) in Hc
      as [Habs (f & Hf & Hreq & _)].
    assert (Hsome : is_Some (firstWithLabel
                               (concatTypedProperties dtParser dtContext t2)
                               (label c))).
    { apply firstWithLabel_is_Some.
      apply firstWithLabel_label in Hf as [Hin Hlab].
      exists f. by rewrite <- Hl. }
    destruct Hsome as [f' Hf'].
    exists {| label := label c;
              required := anyRequired
                            (concatTypedProperties dtParser dtContext t2)
                            (label c);
              type := type f' |}.
    split; [|split; [reflexivity|]].
    - apply (keyCandidates_array_spec _ _ _ t2 _ H2 Hn2 Hpl2). simpl.
      split; [by rewrite <- Hp|]. eauto.
    - simpl. rewrite Hreq. symmetry. by apply anyRequired_perm. }
  intros l r. split.
  - intros (c & Hc & <- & <-).
    by apply (Hside jsonInfo jsonInfo' types types').
  - intros (c & Hc & <- & <-).
    by apply (Hside jsonInfo' jsonInfo types' types).
Qed.

Lemma array_order_keeps_labels_and_required_witness :
  let info := Sample.keyPosition (TypeNames ["Telemetry"; "Property"]) ["@type"] in
  let info' := Sample.keyPosition (TypeNames ["Property"; "Telemetry"]) ["@type"] in
  exists keys keys',
    provideCompletionItems Sample.dtParser (Sample.at_ None (Some info))
      Sample.thermostat Sample.cursor
    = Normal (Some (KeyItems keys))
    ∧ provideCompletionItems Sample.dtParser (Sample.at_ None (Some info'))
        Sample.thermostat Sample.cursor
      = Normal (Some (KeyItems keys'))
    ∧ forall l r,
        (exists c, c ∈ keys ∧ label c = l ∧ required c = r)
        ↔ (exists c', c' ∈ keys' ∧ label c' = l ∧ required c' = r).
Proof.
  intros info info'.
  apply (array_order_keeps_labels_and_required Sample.dtParser
           (Sample.at_ None (Some info)) (Sample.at_ None (Some info'))
           Sample.thermostat Sample.cursor info info'
           ["Telemetry"; "Property"] ["Property"; "Telemetry"]);
    try reflexivity; [discriminate | apply Permutation_swap |].
  intros k Hk. vm_compute in Hk.
  repeat (apply elem_of_cons in Hk as [->|Hk]; [reflexivity|]).
  by apply elem_of_nil in Hk.
Defined.

Lemma ownStore_key_list (k : string) (e : CompletionEntry)
    (l : list (string * CompletionEntry)) :
  (ownStore k e l).*1
  = if bool_decide (k ∈ l.*1) then l.*1 else l.*1 ++ [k].
Proof.
  induction l as [|[k0 e0] l IH]; [reflexivity|].
  cbn [ownStore]. destruct (String.eqb_spec k0 k) as [->|Hne].
  - rewrite !fmap_cons. cbn [fst].
    rewrite bool_decide_eq_true_2; [reflexivity | by left].
  - rewrite !fmap_cons, IH. cbn [fst]. repeat case_bool_decide.
    + reflexivity.
    + exfalso. match goal with H : _ ∉ _ :: _ |- _ => apply H end. by right.
    + exfalso.
      match goal with H : _ ∈ _ :: _ |- _ =>
        apply elem_of_cons in H as [->|H]; [by apply Hne | contradiction] end.
    + reflexivity.
Qed.

Lemma distinctLabels_elem (labels : list string) (l : string) :
  l ∈ distinctLabels labels ↔ l ∈ labels.
Proof.
  induction labels as [|x labels IH]; simpl; [reflexivity|].
  rewrite !elem_of_cons, elem_of_List_filter, IH.
  destruct (String.eqb_spec l x) as [->|Hne]; simpl.
  - split; auto.
  - split; [intros [?|[_ ?]]; auto | intros [?|?]; auto].
Qed.

Lemma distinctLabels_snoc (labels : list string) (l : string) :
  distinctLabels (labels ++ [l])
  = distinctLabels labels
    ++ (if bool_decide (l ∈ labels) then [] else [l]).
Proof.
  induction labels as [|x labels IH]; [reflexivity|].
  cbn [app distinctLabels]. rewrite IH, List.filter_app. f_equal. f_equal.
  repeat case_bool_decide; cbn [List.filter].
  - reflexivity.
  - exfalso. match goal with H : _ ∉ _ :: _ |- _ => apply H end. by right.
  - match goal with H : _ ∈ _ :: _ |- _ =>
      apply elem_of_cons in H as [->|H]; [|contradiction] end.
    by rewrite String.eqb_refl.
  - destruct (String.eqb_spec l x) as [->|Hne]; [|reflexivity].
    exfalso. match goal with H : _ ∉ _ :: _ |- _ => apply H end. by left.
Qed.

Lemma merge_key_list (keyList : list TypedProperty) :
  (forall k, k ∈ keyList -> label k ≠ "__proto__") ->
  (own (fold_left mergeStep keyList emptyObject)).*1
  = distinctLabels (map label keyList).
Proof.
  induction keyList as [|k keyList IH] using rev_ind; intros Hlab.
  - reflexivity.
  - rewrite fold_left_app, map_app. simpl.
    rewrite distinctLabels_snoc, <- IH.
    2:{ intros k' Hk'. apply Hlab. apply elem_of_app. by left. }
    assert (Hk : label k ≠ "__proto__").
    { apply Hlab. apply elem_of_app. right. by left. }
    unfold mergeStep at 1, jsSet.
    destruct (String.eqb_spec (label k) "__proto__"); [contradiction|].
    cbn [own]. rewrite ownStore_key_list.
    set (keys := (own (fold_left mergeStep keyList emptyObject)).*1) in *.
    assert (Hiff : label k ∈ keys ↔ label k ∈ map label keyList).
    { rewrite IH. apply distinctLabels_elem.
      intros k' Hk'. apply Hlab. apply elem_of_app. by left. }
    repeat case_bool_decide; try tauto; by rewrite ?app_nil_r.
Qed.

Lemma named_key_order (keys : list string) :
  (forall k, k ∈ keys -> arrayIndex k = None) ->
  map snd (indexKeys keys) ++ namedKeys keys = keys.
Proof.
  induction keys as [|k keys IH]; intros Hnone; simpl; [reflexivity|].
  rewrite (Hnone k) by (by left).
  rewrite <- IH at 3 by (intros k' Hk'; apply Hnone; by right).
  assert (Hidx : indexKeys keys = []).
  { clear IH. induction keys as [|k' keys IH']; simpl; [reflexivity|].
    rewrite (Hnone k') by (right; by left).
    apply IH'. intros k'' Hk''. apply Hnone.
    apply elem_of_cons in Hk'' as [->|Hk'']; [by left | by right; right]. }
  rewrite Hidx. reflexivity.
Qed.

Lemma filtered_property_labels (jsonInfo : JsonInfo) (o : JsObject)
    (keys : list string) :
  map label
    (List.filter (fun k => absent jsonInfo (label k)) (map (propertyOf o) keys))
  = List.filter (absent jsonInfo) keys.
Proof.
  induction keys as [|k keys IH]; simpl; [reflexivity|].
  destruct (absent jsonInfo k); simpl; by rewrite IH.
Qed.

(** X9: for a non-empty array of types, when no label is ["__proto__"] or
    an array index, the candidates come in the order in which the labels
    first occur in the concatenated typed-property lists of the types, one
    per label, the labels already present among the object's keys left
    out. *)
Theorem array_candidates_in_first_occurrence_order
    (dtParser : DigitalTwinMetaModelParser)
    (json : DigitalTwinMetaModelJsonParser) (document : TextDocument)
    (position : Position) (jsonInfo : JsonInfo) (types : list string) :
  getJsonInfoAtPosition json document position = Some jsonInfo ->
  isValue jsonInfo = false ->
  infoType jsonInfo = TypeNames types ->
  types ≠ [] ->
  let keyList :=
    concatTypedProperties dtParser (contextAt json document position) types in
  (forall k, k ∈ keyList ->
             label k ≠ "__proto__" ∧ arrayIndex (label k) = None) ->
  exists keys,
    provideCompletionItems dtParser json document position
    = Normal (Some (KeyItems keys))
    ∧ map label keys
      = List.filter (absent jsonInfo) (distinctLabels (map label keyList)).
Proof.
  intros Hinfo Hkey Htype Hne keyList Hlab. eexists.
  split; [by apply provideCompletionItems_key|].
  rewrite (keyCandidates_array _ _ _ _ Htype Hne), filtered_property_labels.
  f_equal. unfold objectKeys, mergedObject. fold keyList.
  assert (Hkeys : (own (fold_left mergeStep keyList emptyObject)).*1
                  = distinctLabels (map label keyList)).
  { apply merge_key_list. intros k Hk. by apply Hlab. }
  change (map fst (own (fold_left mergeStep keyList emptyObject)))
    with ((own (fold_left mergeStep keyList emptyObject)).*1).
  rewrite Hkeys. apply named_key_order.
  intros l Hl. apply distinctLabels_elem, list_elem_of_fmap in Hl
    as (k & -> & Hk).
  by apply Hlab.
Qed.

Lemma array_candidates_in_first_occurrence_order_witness :
  let info := Sample.keyPosition (TypeNames ["Property"; "Telemetry"]) ["@type"] in
  let keyList :=
    concatTypedProperties Sample.dtParser
      (contextAt (Sample.at_ None (Some info)) Sample.thermostat Sample.cursor)
      ["Property"; "Telemetry"] in
  exists keys,
    provideCompletionItems Sample.dtParser (Sample.at_ None (Some info))
      Sample.thermostat Sample.cursor
    = Normal (Some (KeyItems keys))
    ∧ map label keys
      = List.filter (absent info) (distinctLabels (map label keyList)).
Proof.
  intros info keyList.
  apply (array_candidates_in_first_occurrence_order Sample.dtParser
           (Sample.at_ None (Some info)) Sample.thermostat Sample.cursor info
           ["Property"; "Telemetry"]);
    [reflexivity | reflexivity | reflexivity | discriminate |].
  intros k Hk. vm_compute in Hk.
  repeat (apply elem_of_cons in Hk as [->|Hk];
          [split; [discriminate | reflexivity]|]).
  by apply elem_of_nil in Hk.
Defined.

Lemma merge_never_owns_proto (keyList : list TypedProperty) (o : JsObject) :
  "__proto__" ∉ (own o).*1 ->
  "__proto__" ∉ (own (fold_left mergeStep keyList o)).*1.
Proof.
  revert o. induction keyList as [|k keyList IH]; intros o Ho; simpl.
  - exact Ho.
  - apply IH. unfold mergeStep, jsSet.
    destruct (String.eqb_spec (label k) "__proto__") as [|Hne]; simpl.
    + exact Ho.
    + rewrite ownStore_keys. intros [H|H]; [by apply Hne | contradiction].
Qed.

(** X10: when the type is an array, a property labelled ["__proto__"] is
    never offered, whatever the ontology declares: assigning that label on
    the merge object replaces its prototype and leaves no key behind. *)
Theorem array_never_offers_proto
    (dtParser : DigitalTwinMetaModelParser)
    (json : DigitalTwinMetaModelJsonParser) (document : TextDocument)
    (position : Position) (jsonInfo : JsonInfo) (types : list string) :
  getJsonInfoAtPosition json document position = Some jsonInfo ->
  isValue jsonInfo = false ->
  infoType jsonInfo = TypeNames types ->
  exists keys,
    provideCompletionItems dtParser json document position
    = Normal (Some (KeyItems keys))
    ∧ "__proto__" ∉ map label keys.
Proof.
  intros Hinfo Hkey Htype. eexists.
  split; [by apply provideCompletionItems_key|].
  destruct types as [|t types'].
  - unfold keyCandidates, keyListOf, inferType. rewrite Htype. simpl.
    rewrite app_nil_r. destruct (absent jsonInfo "@type"); simpl.
    + intros H. apply list_elem_of_singleton in H. discriminate.
    + apply not_elem_of_nil.
  - rewrite (keyCandidates_array _ _ _ (t :: types') Htype) by discriminate.
    rewrite filtered_property_labels. intros H.
    apply elem_of_List_filter in H as [_ H]. apply objectKeys_own in H.
    revert H. apply merge_never_owns_proto. apply not_elem_of_nil.
Qed.

Lemma array_never_offers_proto_witness :
  let dtParser :=
    {| getIdFromShortName := fun _ _ => None;
       getTypesFromId := fun _ _ => [];
       getTypedPropertiesFromType := fun _ _ =>
         [ {| label := "__proto__"; required := true; type := None |};
           {| label := "name"; required := true; type := Some "string" |} ];
       getStringValuesFromShortName := fun _ _ => [];
       getCommentFromId := fun _ => None |} in
  let info := Sample.keyPosition (TypeNames ["Telemetry"]) ["@type"] in
  exists keys,
    provideCompletionItems dtParser (Sample.at_ None (Some info))
      Sample.thermostat Sample.cursor
    = Normal (Some (KeyItems keys))
    ∧ "__proto__" ∉ map label keys.
Proof.
  intros dtParser info.
  apply (array_never_offers_proto dtParser (Sample.at_ None (Some info))
           Sample.thermostat Sample.cursor info ["Telemetry"]);
    reflexivity.
Defined.

(** ** Diagnostics over a whole session *)

Section SessionProperties.

Variable dtDiagnostic : DigitalTwinDiagnostic.

Lemma revalidate_diagnostics (document : TextDocument) (s : Extension) :
  diagnostics (revalidate dtDiagnostic document s)
  = <[fsPath document :=
        validate dtDiagnostic (contextOfPath (fsPath document)) document]>
      (diagnostics s).
Proof.
  unfold revalidate, Diagnostics.update, contextOfPath, getDocumentType. simpl.
  destruct (endsWith (fsPath document) ".interface.json"); reflexivity.
Qed.

Lemma revalidate_coherent (document : TextDocument) (s : Extension) :
  isMetaModelPath (fsPath document) = true ->
  diagnosticsCoherent dtDiagnostic s ->
  diagnosticsCoherent dtDiagnostic (revalidate dtDiagnostic document s).
Proof.
  intros Hmeta [Ht Hd]. split; [exact Ht|].
  intros path l. rewrite revalidate_diagnostics.
  destruct (decide (fsPath document = path)) as [<-|Hne].
  - rewrite lookup_insert_eq. intros [= <-]. split; [exact Hmeta|].
    exists (getText document). by destruct document.
  - rewrite lookup_insert_ne by done. apply Hd.
Qed.

Lemma step_coherent (s : Extension) (e : Event) :
  diagnosticsCoherent dtDiagnostic s ->
  diagnosticsCoherent dtDiagnostic (step dtDiagnostic s e).
Proof.
  intros Hco. pose proof Hco as [Ht Hd].
  destruct e as [document|document|editor|document|id]; simpl.
  - unfold onDidOpenTextDocument.
    destruct (isMetaModelPath (fsPath document)) eqn:Hmeta; [|exact Hco].
    split; [|exact Hd]. intros j t. simpl.
    destruct (decide (nextTimer s = j)) as [<-|Hne].
    + rewrite lookup_insert_eq. by intros [= <-].
    + rewrite lookup_insert_ne by done. apply Ht.
  - unfold onDidChangeTextDocument.
    destruct (isMetaModelPath (fsPath document)) eqn:Hmeta; [|exact Hco].
    split.
    + intros j t. simpl.
      destruct (waitingForUpdatingDiagnostic s) as [id|]; simpl;
        (destruct (decide (nextTimer s = j)) as [<-|Hne];
         [rewrite lookup_insert_eq; by intros [= <-]
         |rewrite lookup_insert_ne by done]).
      * intros Hj. apply lookup_delete_Some in Hj as [_ Hj]. by eapply Ht.
      * apply Ht.
    + intros path l. simpl.
      destruct (waitingForUpdatingDiagnostic s); simpl; apply Hd.
  - destruct editor as [document|]; simpl; [|exact Hco].
    destruct (isMetaModelPath (fsPath document)) eqn:Hmeta; [|exact Hco].
    by apply revalidate_coherent.
  - unfold onDidCloseTextDocument.
    destruct (isMetaModelPath (fsPath document)); [|exact Hco].
    split; [exact Ht|]. intros path l. simpl. unfold Diagnostics.delete.
    intros Hl. apply lookup_delete_Some in Hl as [_ Hl]. by apply Hd.
  - unfold onTimeout. destruct (timers s !! id) as [t|] eqn:Hid; [|exact Hco].
    assert (Hco' : diagnosticsCoherent dtDiagnostic
                     (revalidate dtDiagnostic
                        (liveDocument s (timerDocument t))
                        (clearTimeout id s))).
    { apply revalidate_coherent; [by eapply Ht|].
      split; [|exact Hd]. intros j t'. simpl. intros Hj.
      apply lookup_delete_Some in Hj as [_ Hj]. by eapply Ht. }
    destruct (timerKind t); exact Hco'.
Qed.

Lemma run_coherent (events : list Event) (s : Extension) :
  diagnosticsCoherent dtDiagnostic s ->
  diagnosticsCoherent dtDiagnostic (run dtDiagnostic s events).
Proof.
  revert s. induction events as [|e events IH]; intros s Hco; simpl.
  - exact Hco.
  - apply IH. by apply step_coherent.
Qed.

Lemma activate_coherent (activeEditor : option TextDocument) :
  diagnosticsCoherent dtDiagnostic (activate dtDiagnostic activeEditor).
Proof.
  assert (Hempty : forall b,
             diagnosticsCoherent dtDiagnostic
               {| waitingForUpdatingDiagnostic := None; timers := ∅;
                  nextTimer := 0; buffers := b; diagnostics := ∅ |}).
  { intros b. split; simpl; intros ? ?; by rewrite lookup_empty. }
  unfold activate. destruct activeEditor as [document|]; simpl.
  - destruct (isMetaModelPath (fsPath document)) eqn:Hmeta; simpl.
    + by apply revalidate_coherent.
    + apply Hempty.
  - apply Hempty.
Qed.

Lemma burst_pending (path : string) (texts : list string) (text : string)
    (s : Extension) :
  tracked s ->
  isMetaModelPath path = true ->
  last texts = Some text ->
  let s' := run dtDiagnostic s (editBurst path texts) in
  exists id,
    timers s' = {[ id := {| timerKind := ChangeTimeout;
                            timerDocument := path |} ]}
    ∧ waitingForUpdatingDiagnostic s' = Some id
    ∧ buffers s' !! path = Some text
    ∧ diagnostics s' = diagnostics s.
Proof.
  revert s. induction texts as [|t texts IH]; intros s Htr Hmeta Hlast;
    [discriminate|].
  set (document := {| fsPath := path; getText := t |}).
  destruct (change_timers dtDiagnostic document s Htr Hmeta) as [Ht Hh].
  assert (Hb : buffers (step dtDiagnostic s (DidChangeTextDocument document))
               !! path = Some t).
  { simpl. unfold onDidChangeTextDocument. simpl. rewrite Hmeta. simpl.
    destruct (waitingForUpdatingDiagnostic s); simpl; apply lookup_insert_eq. }
  assert (Hd : diagnostics (step dtDiagnostic s (DidChangeTextDocument document))
               = diagnostics s).
  { simpl. unfold onDidChangeTextDocument. simpl. rewrite Hmeta. simpl.
    by destruct (waitingForUpdatingDiagnostic s). }
  destruct texts as [|t' texts'].
  - injection Hlast as <-. simpl. exists (nextTimer s). auto.
  - assert (Htr' : tracked (step dtDiagnostic s (DidChangeTextDocument document))).
    { apply step_tracked; [discriminate | exact Htr]. }
    destruct (IH _ Htr' Hmeta Hlast) as (id & H1 & H2 & H3 & H4).
    exists id.
    change (run dtDiagnostic s (editBurst path (t :: t' :: texts')))
      with (run dtDiagnostic
              (step dtDiagnostic s (DidChangeTextDocument document))
              (editBurst path (t' :: texts'))).
    cbv zeta in H1, H2, H3, H4. rewrite H4, Hd. auto.
Qed.

End SessionProperties.

(** X11: throughout a session, whatever events arrive, diagnostics are
    listed for metamodel paths only, and every listed set is the
    validation of some text of that document in the context of its file
    name: the Interface context for [.interface.json], the CapabilityModel
    context otherwise. *)
Theorem diagnostics_follow_file_kind
    (dtDiagnostic : DigitalTwinDiagnostic)
    (activeEditor : option TextDocument) (events : list Event)
    (path : string) (l : list Diagnostic) :
  diagnostics (run dtDiagnostic (activate dtDiagnostic activeEditor) events)
    !! path = Some l ->
  isMetaModelPath path = true
  ∧ exists text,
      l = validate dtDiagnostic (contextOfPath path)
            {| fsPath := path; getText := text |}.
Proof.
  intros Hl.
  destruct (run_coherent dtDiagnostic events _
              (activate_coherent dtDiagnostic activeEditor)) as [_ Hd].
  by apply Hd.
Qed.

Lemma diagnostics_follow_file_kind_witness :
  isMetaModelPath (fsPath Sample.thermostat) = true
  ∧ exists text,
      validate Sample.dtDiagnostic dtInterface Sample.thermostat
      = validate Sample.dtDiagnostic (contextOfPath (fsPath Sample.thermostat))
          {| fsPath := fsPath Sample.thermostat; getText := text |}.
Proof.
  apply (diagnostics_follow_file_kind Sample.dtDiagnostic None
           [ DidOpenTextDocument Sample.readme;
             DidOpenTextDocument Sample.thermostat;
             TimerFires 0 ]
           (fsPath Sample.thermostat)
           (validate Sample.dtDiagnostic dtInterface Sample.thermostat)).
  vm_compute. reflexivity.
Defined.

(** X12: an event about a document that is not a metamodel file changes
    neither the pending timers nor the timer handle nor any diagnostics. *)
Theorem other_documents_are_ignored
    (dtDiagnostic : DigitalTwinDiagnostic) (s : Extension) (e : Event)
    (document : TextDocument) :
  eventDocument e = Some document ->
  isMetaModelPath (fsPath document) = false ->
  let s' := step dtDiagnostic s e in
  timers s' = timers s
  ∧ waitingForUpdatingDiagnostic s' = waitingForUpdatingDiagnostic s
  ∧ diagnostics s' = diagnostics s.
Proof.
  intros He Hmeta.
  destruct e as [d|d|[d|]|d|id]; simpl in He; try discriminate;
    injection He as ->; simpl;
    unfold onDidOpenTextDocument, onDidChangeTextDocument,
      onDidCloseTextDocument; simpl; rewrite Hmeta; auto.
Qed.

Lemma other_documents_are_ignored_witness :
  let s :=
    run Sample.dtDiagnostic (activate Sample.dtDiagnostic (Some Sample.hub))
      [ DidChangeTextDocument Sample.hub ] in
  let s' := step Sample.dtDiagnostic s (DidChangeTextDocument Sample.readme) in
  timers s' = timers s
  ∧ waitingForUpdatingDiagnostic s' = waitingForUpdatingDiagnostic s
  ∧ diagnostics s' = diagnostics s.
Proof.
  apply (other_documents_are_ignored Sample.dtDiagnostic
           (run Sample.dtDiagnostic
              (activate Sample.dtDiagnostic (Some Sample.hub))
              [ DidChangeTextDocument Sample.hub ])
           (DidChangeTextDocument Sample.readme) Sample.readme);
    reflexivity.
Defined.

(** X13: a burst of edits of one metamodel document, started while every
    pending timer is the one the handle refers to, leaves a single pending
    timer and the diagnostics untouched; when that timer fires, the
    document's diagnostics are the validation of the text of the last
    edit, no timer is pending and the handle is [null]. *)
Theorem edit_burst_validates_last_text
    (dtDiagnostic : DigitalTwinDiagnostic) (s : Extension)
    (path : string) (texts : list string) (text : string) :
  tracked s ->
  isMetaModelPath path = true ->
  last texts = Some text ->
  let s' := run dtDiagnostic s (editBurst path texts) in
  exists id,
    timers s' = {[ id := {| timerKind := ChangeTimeout;
                            timerDocument := path |} ]}
    ∧ diagnostics s' = diagnostics s
    ∧ let s'' := step dtDiagnostic s' (TimerFires id) in
      diagnostics s'' !! path
      = Some (validate dtDiagnostic (contextOfPath path)
                {| fsPath := path; getText := text |})
      ∧ timers s'' = ∅
      ∧ waitingForUpdatingDiagnostic s'' = None.
Proof.
  intros Htr Hmeta Hlast s'.
  destruct (burst_pending dtDiagnostic path texts text s Htr Hmeta Hlast)
    as (id & Ht & Hh & Hb & Hd).
  fold s' in Ht, Hh, Hb, Hd. exists id.
  split; [exact Ht|]. split; [exact Hd|].
  cbn [step]. unfold onTimeout. rewrite Ht, lookup_singleton_eq.
  cbn [timerKind timerDocument diagnostics timers
       waitingForUpdatingDiagnostic].
  rewrite revalidate_diagnostics. cbn [liveDocument fsPath].
  rewrite lookup_insert_eq. unfold liveDocument. rewrite Hb.
  split; [reflexivity|]. split; [|reflexivity].
  unfold revalidate, clearTimeout. cbn [timers].
  rewrite Ht. apply delete_singleton_eq.
Qed.

Lemma edit_burst_validates_last_text_witness :
  let s := activate Sample.dtDiagnostic (Some Sample.thermostat) in
  let path := fsPath Sample.thermostat in
  let s' := run Sample.dtDiagnostic s (editBurst path ["{"; "{}"; "{ }"]) in
  exists id,
    timers s' = {[ id := {| timerKind := ChangeTimeout;
                            timerDocument := path |} ]}
    ∧ diagnostics s' = diagnostics s
    ∧ let s'' := step Sample.dtDiagnostic s' (TimerFires id) in
      diagnostics s'' !! path
      = Some (validate Sample.dtDiagnostic (contextOfPath path)
                {| fsPath := path; getText := "{ }" |})
      ∧ timers s'' = ∅
      ∧ waitingForUpdatingDiagnostic s'' = None.
Proof.
  apply (edit_burst_validates_last_text Sample.dtDiagnostic
           (activate Sample.dtDiagnostic (Some Sample.thermostat))
           (fsPath Sample.thermostat) ["{"; "{}"; "{ }"] "{ }");
    [apply activate_tracked | reflexivity | reflexivity].
Defined.

(** X14: an edit of any metamodel document that arrives while the timer of
    a just opened document is still pending cancels that timer: the opened
    document's first validation does not take place. *)
Theorem edit_cancels_pending_open_validation
    (dtDiagnostic : DigitalTwinDiagnostic) (s : Extension)
    (opened edited : TextDocument) :
  isMetaModelPath (fsPath opened) = true ->
  isMetaModelPath (fsPath edited) = true ->
  let s1 := step dtDiagnostic s (DidOpenTextDocument opened) in
  let s2 := step dtDiagnostic s1 (DidChangeTextDocument edited) in
  timers s1 !! nextTimer s
  = Some {| timerKind := OpenTimeout; timerDocument := fsPath opened |}
  ∧ timers s2 !! nextTimer s = None
  ∧ diagnostics s2 = diagnostics s.
Proof.
  intros Ho He. simpl.
  unfold onDidChangeTextDocument, onDidOpenTextDocument. simpl.
  rewrite Ho, He. simpl.
  split; [apply lookup_insert_eq|]. split; [|reflexivity].
  rewrite lookup_insert_ne by lia. apply lookup_delete_eq.
Qed.

Lemma edit_cancels_pending_open_validation_witness :
  let s := activate Sample.dtDiagnostic None in
  let s1 := step Sample.dtDiagnostic s (DidOpenTextDocument Sample.hub) in
  let s2 :=
    step Sample.dtDiagnostic s1 (DidChangeTextDocument Sample.thermostat) in
  timers s1 !! nextTimer s
  = Some {| timerKind := OpenTimeout; timerDocument := fsPath Sample.hub |}
  ∧ timers s2 !! nextTimer s = None
  ∧ diagnostics s2 = diagnostics s.
Proof.
  apply (edit_cancels_pending_open_validation Sample.dtDiagnostic
           (activate Sample.dtDiagnostic None) Sample.hub Sample.thermostat);
    reflexivity.
Defined.

(** ** Telemetry properties *)

Lemma propertyLookup_store (k k' v : string) (l : list (string * string)) :
  propertyLookup k' (propertyStore k v l)
  = if String.eqb k k' then Some v else propertyLookup k' l.
Proof.
  induction l as [|[k0 v0] l IH]; simpl.
  - destruct (String.eqb_spec k k'); reflexivity.
  - destruct (String.eqb_spec k0 k) as [->|Hne]; simpl.
    + destruct (String.eqb_spec k k'); reflexivity.
    + rewrite IH. destruct (String.eqb_spec k0 k') as [->|Hne'].
      * destruct (String.eqb_spec k k'); [congruence | reflexivity].
      * reflexivity.
Qed.

Lemma propertyLookup_setProperty (k k' v : string) (l : list (string * string)) :
  propertyLookup k' (setProperty l k v)
  = if String.eqb k k' && negb (String.eqb k "__proto__") then Some v
    else propertyLookup k' l.
Proof.
  unfold setProperty. destruct (String.eqb k "__proto__"); simpl.
  - by rewrite andb_false_r.
  - rewrite propertyLookup_store. by rewrite andb_true_r.
Qed.

Lemma propertyLookup_key (k : string) (l : list (string * string)) :
  k ∈ l.*1 -> is_Some (propertyLookup k l).
Proof.
  induction l as [|[k0 v0] l IH]; simpl.
  - intros H. by apply elem_of_nil in H.
  - intros H. destruct (String.eqb_spec k0 k) as [->|Hne]; [eauto|].
    apply elem_of_cons in H as [->|H]; [by destruct Hne | auto].
Qed.

Lemma propertyLookup_absent (k : string) (l : list (string * string)) :
  k ∉ l.*1 -> propertyLookup k l = None.
Proof.
  induction l as [|[k0 v0] l IH]; simpl; [reflexivity|].
  rewrite not_elem_of_cons. intros [Hne H].
  destruct (String.eqb_spec k0 k) as [->|_]; [by destruct Hne | auto].
Qed.

Lemma copy_properties (additional : list (string * string))
    (keys : list string) (properties : list (string * string)) (k : string) :
  (forall k', k' ∈ keys -> k' ∈ additional.*1) ->
  propertyLookup k
    (fold_left
       (fun properties k' =>
          setProperty properties k'
            (default "" (propertyLookup k' additional)))
       keys properties)
  = if bool_decide (k ∈ keys) && negb (String.eqb k "__proto__")
    then propertyLookup k additional
    else propertyLookup k properties.
Proof.
  revert properties. induction keys as [|k0 keys IH]; intros properties Hsub.
  - reflexivity.
  - cbn [fold_left]. rewrite IH by (intros k' Hk'; apply Hsub; by right).
    rewrite propertyLookup_setProperty.
    destruct (propertyLookup_key k0 additional) as [v0 Hv0];
      [apply Hsub; by left|].
    rewrite Hv0. cbn [default].
    destruct (String.eqb_spec k "__proto__") as [Heq|Hk]; cbn [negb].
    + rewrite !andb_false_r.
      destruct (String.eqb_spec k0 "__proto__") as [Heq0|Hk0];
        [by rewrite andb_false_r|].
      destruct (String.eqb_spec k0 k); [congruence | reflexivity].
    + rewrite !andb_true_r. repeat case_bool_decide.
      * reflexivity.
      * exfalso. match goal with H : _ ∉ _ :: _ |- _ => apply H end. by right.
      * match goal with H : _ ∈ _ :: _ |- _ =>
          apply elem_of_cons in H as [->|H]; [|contradiction] end.
        rewrite String.eqb_refl. simpl.
        destruct (String.eqb_spec k0 "__proto__"); [contradiction|].
        simpl. congruence.
      * destruct (String.eqb_spec k0 k) as [->|Hne]; [|reflexivity].
        exfalso. match goal with H : _ ∉ _ :: _ |- _ => apply H end. by left.
Qed.

(** X15: the [sendTelemetry] command throws when it is called without a
    properties object.  With one, it sends a context of duration 0 whose
    properties are the caller's over the three defaults: every key of the
    caller has the caller's value, also [result], [error] and
    [errorMessage]; the other defaults stay; [__proto__] is never among
    the properties sent. *)
Theorem telemetry_properties_override_defaults
    (additional : list (string * string)) (k : string) :
  sendTelemetry None = Throw TypeError
  ∧ exists context,
      sendTelemetry (Some additional) = Normal context
      ∧ duration context = 0
      ∧ propertyLookup "__proto__" (telemetryProperties context) = None
      ∧ (k ≠ "__proto__" ->
         propertyLookup k (telemetryProperties context)
         = match propertyLookup k additional with
           | Some v => Some v
           | None => propertyLookup k telemetryDefaults
           end).
Proof.
  split; [reflexivity|]. eexists. split; [reflexivity|].
  split; [reflexivity|]. cbn [telemetryProperties]. split.
  - rewrite copy_properties by auto. rewrite String.eqb_refl.
    by rewrite andb_false_r.
  - intros Hk. rewrite copy_properties by auto.
    destruct (String.eqb_spec k "__proto__"); [contradiction|].
    rewrite andb_true_r. case_bool_decide as Hin.
    + destruct (propertyLookup_key k additional Hin) as [v ->]. reflexivity.
    + by rewrite (propertyLookup_absent k additional Hin).
Qed.

Lemma telemetry_properties_override_defaults_witness :
  sendTelemetry None = Throw TypeError
  ∧ exists context,
      sendTelemetry (Some [ ("result", "Failed"); ("board", "devkit") ])
      = Normal context
      ∧ duration context = 0
      ∧ propertyLookup "__proto__" (telemetryProperties context) = None
      ∧ ("result" ≠ "__proto__" ->
         propertyLookup "result" (telemetryProperties context)
         = match propertyLookup "result"
                   [ ("result", "Failed"); ("board", "devkit") ] with
           | Some v => Some v
           | None => propertyLookup "result" telemetryDefaults
           end).
Proof.
  apply (telemetry_properties_override_defaults
           [ ("result", "Failed"); ("board", "devkit") ] "result").
Defined.

(** ** Root kinds *)

(** X16: for an object whose type is the single name [Interface] or
    [CapabilityModel], the candidate list is, in this order: [@context] if
    the object lacks it, the typed properties of the kind that the object
    lacks, in the order of the ontology, and [@id] if the object lacks it. *)
Theorem root_kind_candidate_order
    (dtParser : DigitalTwinMetaModelParser)
    (json : DigitalTwinMetaModelJsonParser) (document : TextDocument)
    (position : Position) (jsonInfo : JsonInfo) (kind : string) :
  getJsonInfoAtPosition json document position = Some jsonInfo ->
  isValue jsonInfo = false ->
  infoType jsonInfo = TypeName kind ->
  kind = "Interface" ∨ kind = "CapabilityModel" ->
  provideCompletionItems dtParser json document position
  = Normal (Some (KeyItems
      ((if absent jsonInfo "@context" then [contextKey] else [])
       ++ List.filter (fun k => absent jsonInfo (label k))
            (getTypedPropertiesFromType dtParser
               (contextAt json document position) kind)
       ++ (if absent jsonInfo "@id" then [idKey] else [])))).
Proof.
  intros Hinfo Hkey Htype Hkind.
  rewrite (provideCompletionItems_key _ _ _ _ _ Hinfo Hkey).
  unfold keyCandidates, keyListOf.
  rewrite inferType_kept by (rewrite Htype; destruct Hkind as [-> | ->];
                             reflexivity).
  rewrite Htype. destruct Hkind as [-> | ->]; reflexivity.
Qed.

Lemma root_kind_candidate_order_witness :
  let info := Sample.keyPosition (TypeName "CapabilityModel") ["@type"; "@id"] in
  provideCompletionItems Sample.dtParser (Sample.at_ None (Some info))
    Sample.hub Sample.cursor
  = Normal (Some (KeyItems
      ((if absent info "@context" then [contextKey] else [])
       ++ List.filter (fun k => absent info (label k))
            (getTypedPropertiesFromType Sample.dtParser
               (contextAt (Sample.at_ None (Some info)) Sample.hub
                  Sample.cursor)
               "CapabilityModel")
       ++ (if absent info "@id" then [idKey] else [])))).
Proof.
  intros info.
  apply (root_kind_candidate_order Sample.dtParser
           (Sample.at_ None (Some info)) Sample.hub Sample.cursor info
           "CapabilityModel");
    [reflexivity | reflexivity | reflexivity | right; reflexivity].
Defined.

(** ** Instances *)

Lemma metamodel_path_shape_witness :
  isMetaModelPath "/models/hub.capabilitymodel.json" = true ↔
  exists stem,
    "/models/hub.capabilitymodel.json" = stem +:+ ".interface.json"
    ∨ "/models/hub.capabilitymodel.json" = stem +:+ ".capabilitymodel.json".
Proof. apply (metamodel_path_shape "/models/hub.capabilitymodel.json"). Defined.

Lemma hover_never_empty_witness :
  provideHover Sample.annotated (Sample.at_ (Some "@value") None)
    Sample.hub Sample.cursor ≠ Some "".
Proof.
  apply (hover_never_empty Sample.annotated (Sample.at_ (Some "@value") None)
           Sample.hub Sample.cursor).
Defined.

Lemma completion_null_cases_witness :
  let json :=
    Sample.at_ None (Some (Sample.valuePosition "@type" (Some "unknown"))) in
  provideCompletionItems Sample.dtParser json Sample.thermostat Sample.cursor
  = Normal None ↔
  getJsonInfoAtPosition json Sample.thermostat Sample.cursor = None
  ∨ exists jsonInfo,
      getJsonInfoAtPosition json Sample.thermostat Sample.cursor
      = Some jsonInfo
      ∧ isValue jsonInfo = true
      ∧ key jsonInfo = "@type"
      ∧ truthy (lastKey jsonInfo) = true
      ∧ truthy (getIdFromShortName Sample.dtParser
                  (contextAt json Sample.thermostat Sample.cursor)
                  (lastKey jsonInfo))
        = false.
Proof.
  intros json.
  apply (completion_null_cases Sample.dtParser json Sample.thermostat
           Sample.cursor).
Defined.

(** ** The value of [@context] *)



